(** * Startup Lawyer API: the request handlers of [main.py] and the record
    declarations of [schemas.py], embedded shallowly.

    Python text is a [string]; a character stands for a code point below 256.
    Literals of the source that hold symbols outside that range are kept as
    the bytes of their UTF-8 encoding.  A Python [dict] is an association list
    in insertion order, as [str()] and the JSON encoder observe that order. *)

From Stdlib Require Import ZArith NArith List Ascii String.
From Stdlib Require Floats.PrimFloat.
From stdpp Require Import base tactics option list strings pretty gmap.
Import ListNotations.

#[local] Set Warnings "-register-all".
Local Open Scope string_scope.

(** ** Values *)

Module Py.

(** What a JSON body parses to ([Dict[str, Any]]), plus the identifier object
    the store puts under ["_id"]. *)
Inductive value : Type :=
| VNone
| VBool (b : bool)
| VInt (n : Z)
| VFloat (f : PrimFloat.float)
| VStr (s : string)
| VList (l : list value)
| VDict (d : list (string * value))
| VId (n : N).

Definition dict : Type := list (string * value).

(** [d.get(k)]: the first binding of [k]. *)
Fixpoint dict_get (k : string) (d : dict) : option value :=
  match d with
  | [] => None
  | (k', v) :: d' => if String.eqb k k' then Some v else dict_get k d'
  end.

(** [d.get(k, default)] *)
Definition dict_get_default (k : string) (default : value) (d : dict) : value :=
  match dict_get k d with Some v => v | None => default end.

(** [d[k] = v]: an existing key keeps its place, a new one goes last. *)
Fixpoint dict_set (k : string) (v : value) (d : dict) : dict :=
  match d with
  | [] => [(k, v)]
  | (k', v') :: d' =>
      if String.eqb k k' then (k', v) :: d' else (k', v') :: dict_set k v d'
  end.

Definition keys (d : dict) : list string := map fst d.

(** ** Exceptions and results *)

Inductive exn_class : Set :=
| KeyError | IndexError | ValueError | AttributeError | TypeError
| ImportError | Exception_.

(** An exception is known by its class and by [str(e)]. *)
Record exn : Set := Exn { exn_cls : exn_class; exn_str : string }.

Inductive result (A : Type) : Type :=
| Ok (a : A)
| Raise (e : exn).
Arguments Ok {A} a.
Arguments Raise {A} e.

#[global] Instance result_ret : MRet result := fun A a => Ok a.
#[global] Instance result_bind : MBind result := fun A B f m =>
  match m with Ok a => f a | Raise e => Raise e end.

Definition is_KeyError (e : exn) : bool :=
  match exn_cls e with KeyError => true | _ => false end.

(** ** Characters *)

(** [nul] is the scanner's mark for an absent conversion. *)
Definition nul : ascii := Ascii.zero.
Definition squote : ascii := "039"%char.
Definition dquote : ascii := "034"%char.
Definition backslash : ascii := "092"%char.
Definition tab : ascii := "009"%char.
Definition newline : ascii := "010"%char.
Definition creturn : ascii := "013"%char.
Definition lbrace : ascii := "123"%char.
Definition rbrace : ascii := "125"%char.

Definition chr (c : ascii) : string := String c "".

Definition hexdigit (n : N) : ascii :=
  nth (N.to_nat n) (list_ascii_of_string "0123456789abcdef") "0"%char.

(** [%02x] of a code point below 256 *)
Definition hex2 (n : N) : string :=
  String (hexdigit (n / 16)) (String (hexdigit (n mod 16)) "").

(** [%x] of a code point below 256 *)
Definition hex (n : N) : string :=
  if (n <? 16)%N then chr (hexdigit n) else hex2 n.

(** [str.isprintable] on one code point below 256. *)
Definition isprintable (c : ascii) : bool :=
  let n := N_of_ascii c in
  ((32 <=? n) && (n <? 127) || (161 <=? n) && negb (n =? 173))%N.

Fixpoint contains_char (c : ascii) (s : string) : bool :=
  match s with
  | EmptyString => false
  | String c' s' => Ascii.eqb c c' || contains_char c s'
  end.

(** ** [repr] of a string ([unicode_repr]); [ascii_only] gives [ascii()]. *)

Definition repr_quote (s : string) : ascii :=
  if contains_char squote s && negb (contains_char dquote s)
  then dquote else squote.

Definition repr_char (ascii_only : bool) (quote c : ascii) : string :=
  let n := N_of_ascii c in
  if Ascii.eqb c quote || Ascii.eqb c backslash then String backslash (chr c)
  else if Ascii.eqb c tab then String backslash "t"
  else if Ascii.eqb c newline then String backslash "n"
  else if Ascii.eqb c creturn then String backslash "r"
  else if (n <? 32)%N || (n =? 127)%N then String backslash ("x" +:+ hex2 n)
  else if (n <? 127)%N then chr c
  else if ascii_only || negb (isprintable c) then String backslash ("x" +:+ hex2 n)
  else chr c.

Fixpoint repr_body (ascii_only : bool) (quote : ascii) (s : string) : string :=
  match s with
  | EmptyString => EmptyString
  | String c s' => repr_char ascii_only quote c +:+ repr_body ascii_only quote s'
  end.

Definition repr_str (ascii_only : bool) (s : string) : string :=
  let q := repr_quote s in
  String q (repr_body ascii_only q s +:+ chr q).

(** [KeyError(k)]: [str()] of a [KeyError] with one argument is the [repr]
    of that argument. *)
Definition key_error (k : string) : exn := Exn KeyError (repr_str false k).

(** ** The parts of the interpreter taken as given *)

Class Runtime : Type := {
  (** [repr(x)] of a float: the shortest decimal text that reads back as [x] *)
  float_repr : PrimFloat.float -> string;
  (** [format(obj, spec)] for a non-empty [spec]: the format mini-language
      of the object's type *)
  format_with_spec : value -> string -> result string;
  (** the [.attr] and [[index]] accessors that follow the first part of a
      replacement field's name *)
  resolve_rest : value -> string -> result value;
}.

(** Modelled from the spec: the text of a store-assigned identifier.  The
    [database] module and the identifier type it returns are not among the
    sources; the spec asks for a string, different for different
    identifiers. *)
Definition id_text (n : N) : string := pretty n.

Section Text.
Context `{Runtime}.

(** [repr(v)], or [ascii(v)] when [ascii_only]. *)
Fixpoint py_repr (ascii_only : bool) (v : value) : string :=
  match v with
  | VNone => "None"
  | VBool b => if b then "True" else "False"
  | VInt n => pretty n
  | VFloat f => float_repr f
  | VStr s => repr_str ascii_only s
  | VList l => "[" +:+ String.concat ", " (map (py_repr ascii_only) l) +:+ "]"
  | VDict d =>
      "{" +:+ String.concat ", "
        (map (fun kv => match kv with
                        | (k, x) => repr_str ascii_only k +:+ ": "
                                    +:+ py_repr ascii_only x
                        end) d) +:+ "}"
  | VId n => "ObjectId(" +:+ repr_str ascii_only (id_text n) +:+ ")"
  end.

(** [str(v)] *)
Definition py_str (v : value) : string :=
  match v with
  | VStr s => s
  | VId n => id_text n
  | _ => py_repr false v
  end.

(** [type(v).__name__] *)
Definition type_name (v : value) : string :=
  match v with
  | VNone => "NoneType"
  | VBool _ => "bool"
  | VInt _ => "int"
  | VFloat _ => "float"
  | VStr _ => "str"
  | VList _ => "list"
  | VDict _ => "dict"
  | VId _ => "ObjectId"
  end.

(** [format(v, spec)]: an empty [spec] gives [str(v)] for each of these
    types. *)
Definition py_format (v : value) (spec : string) : result string :=
  match spec with
  | EmptyString => Ok (py_str v)
  | _ => format_with_spec v spec
  end.

End Text.

End Py.

(** ** [str.format] with keyword arguments

    The scanner and renderer of CPython's [unicode_format.h], for a call with
    keyword arguments only (the positional tuple is empty). *)

Module Format.
Import Py.

Definition PY_SSIZE_T_MAX : N := 9223372036854775807.

Definition value_error (msg : string) : exn := Exn ValueError msg.
Definition index_error (i : N) : exn :=
  Exn IndexError ("Replacement index " +:+ pretty i
                  +:+ " out of range for positional args tuple").

(** *** Field names *)

Inductive char_kind : Set :=
| LBrace | RBrace | LBracket | RBracket | Colon | Bang | Dot | Other.

Definition classify (c : ascii) : char_kind :=
  if Ascii.eqb c lbrace then LBrace
  else if Ascii.eqb c rbrace then RBrace
  else if Ascii.eqb c "["%char then LBracket
  else if Ascii.eqb c "]"%char then RBracket
  else if Ascii.eqb c ":"%char then Colon
  else if Ascii.eqb c "!"%char then Bang
  else if Ascii.eqb c "."%char then Dot
  else Other.

Definition digit_value (c : ascii) : option N :=
  let n := N_of_ascii c in
  if ((48 <=? n) && (n <=? 57))%N then Some (n - 48)%N else None.

(** [get_integer]: the text is an index, is not one, or overflows. *)
Inductive index : Set :=
| NotIndex
| Index (i : N)
| TooManyDigits.

Fixpoint get_integer_from (accumulator : N) (s : string) : index :=
  match s with
  | EmptyString => Index accumulator
  | String c s' =>
      match digit_value c with
      | None => NotIndex
      | Some digitval =>
          if ((PY_SSIZE_T_MAX - digitval) / 10 <? accumulator)%N
          then TooManyDigits
          else get_integer_from (accumulator * 10 + digitval) s'
      end
  end.

Definition get_integer (s : string) : index :=
  match s with
  | EmptyString => NotIndex
  | _ => get_integer_from 0 s
  end.

(** [field_name_split]: the part up to the first ['.'] or ['['], and the
    accessors after it. *)
Fixpoint field_name_split (s : string) : string * string :=
  match s with
  | EmptyString => (EmptyString, EmptyString)
  | String c s' =>
      match classify c with
      | Dot | LBracket => (EmptyString, s)
      | _ => let (first, rest) := field_name_split s' in (String c first, rest)
      end
  end.

Section Render.
Context `{Runtime}.
Variable kwargs : dict.

(** [get_field_object], first part: an empty or numeric name indexes the
    positional arguments, of which there are none; any other name is a key
    of [kwargs]. *)
Definition lookup_first (first : string) : result value :=
  match get_integer first with
  | TooManyDigits => Raise (value_error "Too many decimal digits in format string")
  | Index i => Raise (index_error i)
  | NotIndex =>
      match first with
      | EmptyString => Raise (index_error 0)
      | _ => match dict_get first kwargs with
             | Some obj => Ok obj
             | None => Raise (key_error first)
             end
      end
  end.

Definition get_field_object (field_name : string) : result value :=
  let (first, rest) := field_name_split field_name in
  obj ← lookup_first first;
  match rest with
  | EmptyString => Ok obj
  | _ => resolve_rest obj rest
  end.

(** [do_conversion]: [!r], [!s] and [!a]. *)
Definition do_conversion (obj : value) (conversion : ascii) : result value :=
  if Ascii.eqb conversion "r" then Ok (VStr (py_repr false obj))
  else if Ascii.eqb conversion "s" then Ok (VStr (py_str obj))
  else if Ascii.eqb conversion "a" then Ok (VStr (py_repr true obj))
  else
    let n := N_of_ascii conversion in
    if ((32 <? n) && (n <? 127))%N
    then Raise (value_error ("Unknown conversion specifier " +:+ chr conversion))
    else Raise (value_error ("Unknown conversion specifier "
                             +:+ String backslash ("x" +:+ hex n))).

(** [output_markup]: look the object up, convert it, expand a nested format
    spec, render.  [expand] is [build_string] one level deeper. *)
Definition output_markup (expand : string -> result string)
    (field_name : string) (conversion : ascii) (format_spec : string)
    (format_spec_needs_expanding : bool) : result string :=
  fieldobj ← get_field_object field_name;
  fieldobj ← (if Ascii.eqb conversion nul then Ok fieldobj
              else do_conversion fieldobj conversion);
  actual_format_spec ← (if format_spec_needs_expanding
                        then expand format_spec else Ok format_spec);
  py_format fieldobj actual_format_spec.

(** *** The scanner

    [MarkupIterator_next] and [parse_field] read one character at a time;
    the positions they can be in are the constructors of [scan]. *)
Inductive scan : Set :=
| Literal
  (** in a field name; [in_brackets] after a ['['] not yet closed *)
| FieldName (name : string) (in_brackets : bool)
  (** just after ['!'] *)
| Conversion (name : string)
  (** after the conversion character *)
| AfterConversion (name : string) (conversion : ascii)
  (** in a format spec, [nesting] braces deep inside it *)
| FormatSpec (name : string) (conversion : ascii) (spec : string)
    (nesting : nat) (needs_expanding : bool).

Definition snoc (s : string) (c : ascii) : string := s +:+ chr c.

Fixpoint do_markup (expand : string -> result string)
    (st : scan) (writer : string) (input : string) : result string :=
  match input with
  | EmptyString =>
      match st with
      | Literal => Ok writer
      | FieldName _ _ =>
          Raise (value_error "expected '}' before end of string")
      | Conversion _ =>
          Raise (value_error
                   "end of string while looking for conversion specifier")
      | AfterConversion _ _ | FormatSpec _ _ _ _ _ =>
          Raise (value_error "unmatched '{' in format spec")
      end
  | String c rest =>
      match st with
      | Literal =>
          match classify c with
          | LBrace =>
              match rest with
              | EmptyString =>
                  Raise (value_error "Single '{' encountered in format string")
              | String c' rest' =>
                  if Ascii.eqb c' lbrace
                  then do_markup expand Literal (snoc writer c) rest'
                  else do_markup expand (FieldName "" false) writer rest
              end
          | RBrace =>
              match rest with
              | EmptyString =>
                  Raise (value_error "Single '}' encountered in format string")
              | String c' rest' =>
                  if Ascii.eqb c' rbrace
                  then do_markup expand Literal (snoc writer c) rest'
                  else Raise (value_error
                                "Single '}' encountered in format string")
              end
          | _ => do_markup expand Literal (snoc writer c) rest
          end
      | FieldName name true =>
          match classify c with
          | RBracket => do_markup expand (FieldName (snoc name c) false) writer rest
          | _ => do_markup expand (FieldName (snoc name c) true) writer rest
          end
      | FieldName name false =>
          match classify c with
          | LBrace => Raise (value_error "unexpected '{' in field name")
          | LBracket => do_markup expand (FieldName (snoc name c) true) writer rest
          | RBrace =>
              text ← output_markup expand name nul "" false;
              do_markup expand Literal (writer +:+ text) rest
          | Colon => do_markup expand (FormatSpec name nul "" 0 false) writer rest
          | Bang => do_markup expand (Conversion name) writer rest
          | _ => do_markup expand (FieldName (snoc name c) false) writer rest
          end
      | Conversion name =>
          do_markup expand (AfterConversion name c) writer rest
      | AfterConversion name conversion =>
          match classify c with
          | RBrace =>
              text ← output_markup expand name conversion "" false;
              do_markup expand Literal (writer +:+ text) rest
          | Colon =>
              do_markup expand (FormatSpec name conversion "" 0 false) writer rest
          | _ => Raise (value_error "expected ':' after conversion specifier")
          end
      | FormatSpec name conversion spec nesting needs_expanding =>
          match classify c with
          | LBrace =>
              do_markup expand
                (FormatSpec name conversion (snoc spec c) (S nesting) true)
                writer rest
          | RBrace =>
              match nesting with
              | O =>
                  text ← output_markup expand name conversion spec needs_expanding;
                  do_markup expand Literal (writer +:+ text) rest
              | S nesting' =>
                  do_markup expand
                    (FormatSpec name conversion (snoc spec c) nesting'
                       needs_expanding)
                    writer rest
              end
          | _ =>
              do_markup expand
                (FormatSpec name conversion (snoc spec c) nesting needs_expanding)
                writer rest
          end
      end
  end.

(** [build_string]: [recursion_depth] levels of nested format specs are left. *)
Fixpoint build_string (recursion_depth : nat) (input : string) : result string :=
  match recursion_depth with
  | O => Raise (value_error "Max string recursion exceeded")
  | S depth => do_markup (build_string depth) Literal "" input
  end.

(** [do_format] *)
Definition format (body : string) : result string := build_string 2 body.

End Render.

(** [body.format], the entries of [variables] passed as keyword arguments *)
Definition str_format `{Runtime} (body : string) (variables : dict) : result string :=
  format variables body.

End Format.

(** ** [schemas.py] *)

Module Schemas.
Import Py.

(** The annotations the five models use. *)
Inductive annotation : Set :=
| TStr                                   (* str *)
| TEmailStr                              (* pydantic.EmailStr *)
| TDate                                  (* datetime.date *)
| TDictAny                               (* typing.Dict *)
| TList (item : annotation)              (* typing.List[item] *)
| TDict (key item : annotation)          (* typing.Dict[key, item] *)
| TOptional (item : annotation).         (* typing.Optional[item] *)

(** A [BaseModel] subclass: [__name__] and [model_fields], in declaration
    order. *)
Record model : Set := Model {
  model_name : string;
  model_fields : list (string * annotation);
}.

Definition Client : model := Model "Client" [
  ("name", TStr);
  ("email", TOptional TEmailStr);
  ("phone", TOptional TStr);
  ("company_type", TOptional TStr);
  ("jurisdiction", TOptional TStr);
  ("founders", TOptional (TList TDictAny))
].

Definition Matter : model := Model "Matter" [
  ("client_id", TStr);
  ("title", TStr);
  ("status", TStr);
  ("description", TOptional TStr);
  ("tags", TOptional (TList TStr))
].

Definition DocumentTemplate : model := Model "DocumentTemplate" [
  ("name", TStr);
  ("category", TStr);
  ("variables", TList TStr);
  ("body", TStr)
].

Definition Document : model := Model "Document" [
  ("client_id", TOptional TStr);
  ("matter_id", TOptional TStr);
  ("title", TStr);
  ("category", TStr);
  ("content", TStr);
  ("template_id", TOptional TStr);
  ("variables", TOptional (TDict TStr TStr))
].

Definition Task : model := Model "Task" [
  ("client_id", TOptional TStr);
  ("matter_id", TOptional TStr);
  ("title", TStr);
  ("status", TStr);
  ("due_date", TOptional TDate);
  ("assignee", TOptional TStr);
  ("notes", TOptional TStr)
].

(** How [typing] prints an annotation inside brackets ([_type_repr]). *)
Fixpoint type_repr (a : annotation) : string :=
  match a with
  | TStr => "str"
  | TEmailStr => "pydantic.networks.EmailStr"
  | TDate => "datetime.date"
  | TDictAny => "typing.Dict"
  | TList item => "typing.List[" +:+ type_repr item +:+ "]"
  | TDict key item =>
      "typing.Dict[" +:+ type_repr key +:+ ", " +:+ type_repr item +:+ "]"
  | TOptional item => "typing.Optional[" +:+ type_repr item +:+ "]"
  end.

(** [str(annotation)]: a class prints as [<class '...'>], a [typing] form
    as [type_repr] has it. *)
Definition str_annotation (a : annotation) : string :=
  match a with
  | TStr | TEmailStr | TDate => "<class '" +:+ type_repr a +:+ "'>"
  | _ => type_repr a
  end.

End Schemas.

(** ** [main.py] *)

Module Main.
Import Py Format Schemas.

(** What a handler answers: the value it returns, or the [HTTPException] it
    raises. *)
Inductive http (A : Type) : Type :=
| Returns (a : A)
| HTTPException (status_code : Z) (detail : string).
Arguments Returns {A} a.
Arguments HTTPException {A} status_code detail.

(** [s[:n]] *)
Fixpoint str_take (n : nat) (s : string) : string :=
  match n, s with
  | S n', String c s' => String c (str_take n' s')
  | _, _ => EmptyString
  end.

(** [str.lower] on one code point below 256: the capitals are A to Z and,
    above 127, the code points 192 to 222 other than the multiplication sign
    (215); each has its small letter 32 places further on. *)
Definition lower_char (c : ascii) : ascii :=
  let n := N_of_ascii c in
  if ((65 <=? n) && (n <=? 90)
      || (192 <=? n) && (n <=? 222) && negb (n =? 215))%N
  then ascii_of_N (n + 32) else c.

Fixpoint lower (s : string) : string :=
  match s with
  | EmptyString => EmptyString
  | String c s' => String (lower_char c) (lower s')
  end.

(** *** [GET /] and [GET /api/hello] *)

Definition read_root : dict := [("message", VStr "Startup Lawyer API is running")].

Definition hello : dict := [("message", VStr "Hello from the backend API!")].

(** *** [GET /test] *)

(** [os.getenv] for the two names the handler reads. *)
Record environ : Set := Environ {
  DATABASE_URL : option string;
  DATABASE_NAME : option string;
}.

(** The [db] object of the [database] module, as far as the handler touches
    it: [hasattr(db, 'name')] with [db.name], and the outcome of
    [db.list_collection_names()]. *)
Record Database : Set := {
  db_name : option string;
  list_collection_names : result (list string);
}.

(** Truthiness of [os.getenv(...)]: set, and not the empty string. *)
Definition truthy (v : option string) : bool :=
  match v with
  | None | Some EmptyString => false
  | Some _ => true
  end.

Definition set_or_not (v : option string) : value :=
  VStr (if truthy v then "✅ Set" else "❌ Not Set").

(** [imported] is the outcome of [from database import db]: an exception,
    [None], or a handle. *)
Definition test_database (env : environ) (imported : result (option Database)) : dict :=
  let response := [
    ("backend", VStr "✅ Running");
    ("database", VStr "❌ Not Available");
    ("database_url", VNone);
    ("database_name", VNone);
    ("connection_status", VStr "Not Connected");
    ("collections", VList [])
  ] in
  let response :=
    match imported with
    | Ok (Some db) =>
        let response := dict_set "database" (VStr "✅ Connected & Working") response in
        let response := dict_set "database_url" (set_or_not (DATABASE_URL env)) response in
        let response :=
          dict_set "database_name"
            (VStr (match db_name db with Some n => n | None => "✅ Connected" end))
            response in
        let response := dict_set "connection_status" (VStr "Connected") response in
        match list_collection_names db with
        | Ok collections =>
            dict_set "collections" (VList (map VStr (firstn 10 collections))) response
        | Raise e =>
            dict_set "database"
              (VStr ("⚠️  Connected but Error: " +:+ str_take 50 (exn_str e)))
              response
        end
    | Ok None =>
        dict_set "database" (VStr "⚠️  Available but not initialized") response
    | Raise e =>
        dict_set "database" (VStr ("❌ Error: " +:+ str_take 50 (exn_str e))) response
    end in
  let response := dict_set "database_url" (set_or_not (DATABASE_URL env)) response in
  let response := dict_set "database_name" (set_or_not (DATABASE_NAME env)) response in
  response.

(** *** [GET /schema] *)

Definition model_info (m : model) : dict :=
  let fields :=
    fold_left (fun fields nf => dict_set (fst nf) (VStr (str_annotation (snd nf))) fields)
      (model_fields m) [] in
  [("name", VStr (lower (model_name m))); ("fields", VDict fields)].

(** [imported] is the outcome of [from schemas import ...]. *)
Definition schema_overview (imported : result unit) : dict :=
  match imported with
  | Ok _ =>
      [("collections", VList [
          VDict (model_info Client);
          VDict (model_info Matter);
          VDict (model_info DocumentTemplate);
          VDict (model_info Document);
          VDict (model_info Task)
        ])]
  | Raise e => [("error", VStr (exn_str e))]
  end.

(** *** Handlers that may reach the store

    [create_document] and [get_documents] come from the [database] module.
    The handlers are written against any store with these two operations; a
    call takes the state of the store and gives back its outcome and the
    state after it. *)

Definition handler (store A : Type) : Type := store -> http A * store.

Record GeneratePayload : Type := {
  template : dict;
  variables : dict;
}.

Section Handlers.
Context `{Runtime} {store : Type}.
Variable create_document : string -> dict -> store -> result string * store.
Variable get_documents : string -> Z -> store -> result (list dict) * store.

(** [GET /api/templates/defaults] *)
Definition default_templates : handler store (list dict) := fun db =>
  (Returns [
    [ ("name", VStr "Mutual NDA");
      ("category", VStr "contract");
      ("variables", VList [VStr "party_a_name"; VStr "party_b_name";
                           VStr "effective_date"; VStr "jurisdiction"]);
      ("body", VStr (
        "This Mutual Non-Disclosure Agreement (the " +:+ chr dquote
        +:+ "Agreement" +:+ chr dquote
        +:+ ") is made effective on {effective_date} between {party_a_name} and {party_b_name}. "
        +:+ "Each party agrees to hold Confidential Information in strict confidence and not to disclose it to any third party... Governing law: {jurisdiction}."))
    ];
    [ ("name", VStr "Advisor Agreement");
      ("category", VStr "corporate");
      ("variables", VList [VStr "company_name"; VStr "advisor_name";
                           VStr "equity_percent"; VStr "vesting_months"]);
      ("body", VStr (
        "This Advisor Agreement is entered into by and between {company_name} and {advisor_name}. "
        +:+ "Compensation shall be equity equal to {equity_percent}% vesting over {vesting_months} months..."))
    ];
    [ ("name", VStr "IP Assignment");
      ("category", VStr "ip");
      ("variables", VList [VStr "assignor_name"; VStr "assignee_company";
                           VStr "effective_date"]);
      ("body", VStr
        "For good and valuable consideration, {assignor_name} hereby assigns to {assignee_company} all right, title, and interest in and to the Assigned Inventions effective {effective_date}...")
    ]
  ], db).

(** [body.format], the entries of [variables] passed as keyword arguments,
    where [body] is whatever the template holds under ["body"]: only a [str]
    has the method. *)
Definition call_format (body : value) (variables : dict) : result string :=
  match body with
  | VStr text => str_format text variables
  | _ => Raise (Exn AttributeError
                  ("'" +:+ type_name body +:+ "' object has no attribute 'format'"))
  end.

(** The merge of [generate_document]: [body = template.get("body", "")] and
    [filled = body.format(...)]. *)
Definition merge (template variables : dict) : result string :=
  let body := dict_get_default "body" (VStr "") template in
  call_format body variables.

(** The two [except] clauses of [generate_document]. *)
Definition generate_except {A : Type} (e : exn) : http A :=
  if is_KeyError e
  then HTTPException 400 ("Missing variable: " +:+ exn_str e)
  else HTTPException 400 (exn_str e).

(** The record [generate_document] hands to the store. *)
Definition generated_doc (template variables : dict) (filled : string) : dict := [
  ("title", dict_get_default "name" (VStr "Generated Document") template);
  ("category", dict_get_default "category" (VStr "contract") template);
  ("content", VStr filled);
  ("template_id", VNone);
  ("variables", VDict variables)
].

(** [POST /api/generate] *)
Definition generate_document (payload : GeneratePayload) : handler store dict := fun db =>
  let template := template payload in
  let variables := variables payload in
  match merge template variables with
  | Raise e => (generate_except e, db)
  | Ok filled =>
      let doc := generated_doc template variables filled in
      match create_document "document" doc db with
      | (Ok new_id, db') =>
          (Returns [("id", VStr new_id); ("content", VStr filled)], db')
      | (Raise e, db') => (generate_except e, db')
      end
  end.

(** [POST /api/collections/{collection}] *)
Definition create_item (collection : string) (data : dict) : handler store dict := fun db =>
  match create_document collection data db with
  | (Ok new_id, db') => (Returns [("id", VStr new_id)], db')
  | (Raise e, db') => (HTTPException 400 (exn_str e), db')
  end.

(** The body of the loop of [list_items]. *)
Definition stringify_id (d : dict) : dict :=
  dict_set "_id" (VStr (py_str (dict_get_default "_id" VNone d))) d.

(** [GET /api/collections/{collection}]; [limit] is [None] when the query
    leaves it out. *)
Definition list_items (collection : string) (limit : option Z) : handler store (list dict) := fun db =>
  let limit := match limit with Some n => n | None => 50%Z end in
  match get_documents collection limit db with
  | (Ok docs, db') =>
      let result := fold_left (fun result d => (result ++ [stringify_id d])%list) docs [] in
      (Returns result, db')
  | (Raise e, db') => (HTTPException 400 (exn_str e), db')
  end.

End Handlers.

End Main.

(** ** A store behind [create_document] *)

Module Store.
Import Py.

(** Modelled from the spec: the [database] module is not among the sources.
    A stored record is a field mapping together with the identifier the
    store assigned to it; the identifiers handed out so far are those below
    [next_id].  Which writes the store rejects is the store's own affair:
    [accepts] says it for each collection name and record. *)
Record database : Type := Database {
  collections : gmap string (list (N * dict));
  next_id : N;
  accepts : string -> dict -> bool;
}.

(** Modelled from the spec: the process-wide connection of the [database]
    module, an optional handle checked by each operation; [None] when the
    store could not be reached. *)
Definition store : Type := option database.

(** Modelled from the spec: the two failures of a create (StoreError), the
    connection being unavailable and the write being rejected. *)
Definition store_error : exn := Exn Exception_ "Database not available".
Definition write_rejected : exn := Exn Exception_ "Write rejected".

Definition records (collection_name : string) (db : database) : list (N * dict) :=
  default [] (collections db !! collection_name).

(** Modelled from the spec: [create_document] of the [database] module.
    It inserts the record, as it is, into the named collection together
    with a newly assigned identifier and returns that identifier as a
    string; it fails when the connection is unavailable or the write is
    rejected, and then stores nothing. *)
Definition create_document (collection_name : string) (record : dict)
    (s : store) : result string * store :=
  match s with
  | None => (Raise store_error, s)
  | Some db =>
      if accepts db collection_name record
      then
        let new_id := next_id db in
        (Ok (id_text new_id),
         Some {| collections :=
                   <[collection_name :=
                       (records collection_name db ++ [(new_id, record)])%list]>
                     (collections db);
                 next_id := N.succ new_id;
                 accepts := accepts db |})
      else (Raise write_rejected, s)
  end.

(** A store that is connected, holds nothing and accepts every write. *)
Definition empty : store :=
  Some {| collections := ∅; next_id := 0; accepts := fun _ _ => true |}.

End Store.

(** ** Shapes of template bodies *)

Module Template.
Import Py Format.

(** No ['{'] and no ['}'] in the text. *)
Fixpoint no_braces (s : string) : bool :=
  match s with
  | EmptyString => true
  | String c s' =>
      match classify c with
      | LBrace | RBrace => false
      | _ => no_braces s'
      end
  end.

(** None of the characters the field syntax gives a meaning to. *)
Fixpoint name_chars (s : string) : bool :=
  match s with
  | EmptyString => true
  | String c s' =>
      match classify c with
      | Other => name_chars s'
      | _ => false
      end
  end.

(** A name that [str.format] looks up among the keyword arguments as it
    stands: not empty, not a number, free of field syntax. *)
Definition plain_name (x : string) : bool :=
  name_chars x
  && match x with EmptyString => false | _ => true end
  && match get_integer x with NotIndex => true | _ => false end.

(** The text of the placeholder for [x]. *)
Definition placeholder (x : string) : string :=
  String lbrace (x +:+ chr rbrace).

Fixpoint starts_with (prefix s : string) : bool :=
  match prefix, s with
  | EmptyString, _ => true
  | String a prefix', String b s' => Ascii.eqb a b && starts_with prefix' s'
  | _, _ => false
  end.

(** [needle in hay] *)
Fixpoint occurs_in (needle hay : string) : bool :=
  starts_with needle hay
  || match hay with
     | EmptyString => false
     | String _ hay' => occurs_in needle hay'
     end.

(** A body taken apart: text without braces, placeholders, and the
    doubled braces that stand for one literal brace. *)
Inductive segment : Set :=
| Text (s : string)
| Hole (x : string)
| OpenBrace
| CloseBrace.

Definition segment_text (g : segment) : string :=
  match g with
  | Text s => s
  | Hole x => placeholder x
  | OpenBrace => "{{"
  | CloseBrace => "}}"
  end.

(** The body a list of segments spells. *)
Fixpoint body_of (segments : list segment) : string :=
  match segments with
  | [] => EmptyString
  | g :: segments' => segment_text g +:+ body_of segments'
  end.

Definition well_formed (g : segment) : bool :=
  match g with
  | Text s => no_braces s
  | Hole x => plain_name x
  | OpenBrace | CloseBrace => true
  end.

(** The names of the placeholders, in order. *)
Fixpoint holes (segments : list segment) : list string :=
  match segments with
  | [] => []
  | Hole x :: segments' => x :: holes segments'
  | _ :: segments' => holes segments'
  end.

Section Fill.
Context `{Runtime}.

(** Substitution read from left to right: each placeholder gives [str()]
    of its value, a doubled brace gives one brace, and the first
    placeholder without a value ends it with [KeyError]. *)
Fixpoint fill (variables : dict) (segments : list segment) : result string :=
  match segments with
  | [] => Ok EmptyString
  | g :: segments' =>
      piece ← match g with
              | Text s => Ok s
              | Hole x =>
                  match dict_get x variables with
                  | Some v => Ok (py_str v)
                  | None => Raise (key_error x)
                  end
              | OpenBrace => Ok (chr lbrace)
              | CloseBrace => Ok (chr rbrace)
              end;
      rest ← fill variables segments';
      Ok (piece +:+ rest)
  end.

End Fill.


(** The names a template lists under "variables". *)
Definition listed_variables (template : dict) : list string :=
  match dict_get "variables" template with
  | Some (VList names) =>
      omap (fun v => match v with VStr x => Some x | _ => None end) names
  | _ => []
  end.

(** Only the digits 0 to 9; the empty text has no other character either. *)
Fixpoint all_digits (s : string) : bool :=
  match s with
  | EmptyString => true
  | String c s' =>
      match digit_value c with
      | Some _ => all_digits s'
      | None => false
      end
  end.

(** The number that digits write in base ten, read on from [accumulator];
    the empty text writes 0. *)
Fixpoint decimal_from (accumulator : N) (s : string) : N :=
  match s with
  | EmptyString => accumulator
  | String c s' =>
      decimal_from (accumulator * 10 + default 0%N (digit_value c)) s'
  end.

Definition decimal_value (s : string) : N := decimal_from 0 s.

(** Every binding of the first dictionary is one of the second. *)
Definition extends (variables variables' : dict) : Prop :=
  forall (k : string) (v : value),
    dict_get k variables = Some v -> dict_get k variables' = Some v.

End Template.

(** ** Inputs for worked examples *)

Module Examples.
Import Py Main.

(** A runtime for examples in which no float is printed and no field has a
    format spec or an accessor: it refuses the last two. *)
Definition runtime : Runtime := {|
  float_repr := fun _ => "nan";
  format_with_spec := fun _ _ => Raise (Exn ValueError "Invalid format specifier");
  resolve_rest := fun obj _ =>
    Raise (Exn AttributeError
             ("'" +:+ type_name obj +:+ "' object has no attribute"));
|}.

Definition nda_body : string :=
  "Agreement between {party_a_name} and {party_b_name}.".

Definition nda_template : dict := [
  ("name", VStr "NDA");
  ("category", VStr "contract");
  ("body", VStr nda_body)
].

Definition nda_variables : dict := [
  ("party_a_name", VStr "Acme");
  ("party_b_name", VStr "Beta")
].

End Examples.

(** * Properties *)

(** ** Text *)

Module TextFacts.
Import Py.

Lemma append_nil (s : string) : "" +:+ s = s.
Proof. reflexivity. Qed.

Lemma append_cons (c : ascii) (a b : string) :
  String c a +:+ b = String c (a +:+ b).
Proof. reflexivity. Qed.

Lemma append_empty_r (s : string) : s +:+ "" = s.
Proof.
  induction s as [|c s IH]; [reflexivity|].
  now rewrite append_cons, IH.
Qed.

Lemma append_assoc (a b c : string) : (a +:+ b) +:+ c = a +:+ (b +:+ c).
Proof.
  induction a as [|x a IH]; [reflexivity|].
  now rewrite !append_cons, IH.
Qed.

Lemma append_chr (w : string) (c : ascii) (s : string) :
  (w +:+ chr c) +:+ s = w +:+ String c s.
Proof. now rewrite append_assoc. Qed.

Lemma id_text_inj (m n : N) : id_text m = id_text n -> m = n.
Proof. apply pretty_N_inj. Qed.

Lemma pretty_N_go_length (x : N) (s : string) :
  String.length s <= String.length (pretty_N_go x s).
Proof.
  revert s. induction (N.lt_wf_0 x) as [x _ IH]; intros s.
  destruct (decide (x = 0%N)) as [->|Hx]; [now rewrite pretty_N_go_0|].
  rewrite pretty_N_go_step by lia.
  etrans; [|eapply IH, N.div_lt; lia]. simpl. lia.
Qed.

Lemma id_text_nonempty (n : N) : id_text n <> "".
Proof.
  unfold id_text, pretty, pretty_N.
  destruct (decide (n = 0%N)) as [->|Hn]; [discriminate|].
  rewrite pretty_N_go_step by lia.
  intros Heq.
  pose proof (pretty_N_go_length (n `div` 10)
                (String (pretty_N_char (n `mod` 10)) "")) as Hlen.
  rewrite Heq in Hlen. simpl in Hlen. lia.
Qed.

End TextFacts.

(** ** [str.format] *)

Module FormatFacts.
Import Py Format Template TextFacts.

Lemma classify_lbrace : classify lbrace = LBrace.
Proof. reflexivity. Qed.

Lemma classify_rbrace : classify rbrace = RBrace.
Proof. reflexivity. Qed.

Lemma classify_not_lbrace (c : ascii) :
  classify c <> LBrace -> Ascii.eqb c lbrace = false.
Proof.
  unfold classify. destruct (Ascii.eqb c lbrace); [congruence | reflexivity].
Qed.

Lemma field_name_split_name_chars (x : string) :
  name_chars x = true -> field_name_split x = (x, "").
Proof.
  induction x as [|c x IH]; simpl; [reflexivity|].
  destruct (classify c); try discriminate.
  intros Hx. now rewrite (IH Hx).
Qed.

Section Scanner.
Context `{Runtime}.
Variable kwargs : dict.
Variable expand : string -> result string.

(** Text without braces is copied to the output. *)
Lemma do_markup_literal (lit : string) :
  no_braces lit = true ->
  forall w rest,
    do_markup kwargs expand Literal w (lit +:+ rest)
    = do_markup kwargs expand Literal (w +:+ lit) rest.
Proof.
  induction lit as [|c lit IH]; intros Hlit w rest.
  - now rewrite append_nil, append_empty_r.
  - simpl in Hlit. rewrite append_cons. simpl.
    destruct (classify c); try discriminate;
      rewrite (IH Hlit); unfold snoc; now rewrite append_chr.
Qed.

(** An opening brace not followed by another one starts a field. *)
Lemma do_markup_open (c : ascii) (rest w : string) :
  Ascii.eqb c lbrace = false ->
  do_markup kwargs expand Literal w (String lbrace (String c rest))
  = do_markup kwargs expand (FieldName "" false) w (String c rest).
Proof.
  intros Hc. cbn [do_markup]. rewrite classify_lbrace, Hc. reflexivity.
Qed.

(** Inside a field, the characters of a name are collected up to the
    closing brace. *)
Lemma do_markup_field_name (x : string) :
  name_chars x = true ->
  forall acc w rest,
    do_markup kwargs expand (FieldName acc false) w (x +:+ String rbrace rest)
    = (text ← output_markup kwargs expand (acc +:+ x) nul "" false;
       do_markup kwargs expand Literal (w +:+ text) rest).
Proof.
  induction x as [|c x IH]; intros Hx acc w rest.
  - rewrite append_nil, append_empty_r. reflexivity.
  - simpl in Hx. rewrite append_cons. simpl.
    destruct (classify c); try discriminate.
    rewrite (IH Hx). unfold snoc. now rewrite append_chr.
Qed.

Lemma lookup_first_plain (x : string) :
  plain_name x = true ->
  lookup_first kwargs x
  = match dict_get x kwargs with
    | Some obj => Ok obj
    | None => Raise (key_error x)
    end.
Proof.
  unfold plain_name, lookup_first. intros Hx.
  apply andb_prop in Hx as [Hx Hint]. apply andb_prop in Hx as [_ Hne].
  destruct (get_integer x); try discriminate.
  destruct x; [discriminate | reflexivity].
Qed.

Lemma output_markup_plain (x : string) :
  plain_name x = true ->
  output_markup kwargs expand x nul "" false
  = match dict_get x kwargs with
    | Some obj => Ok (py_str obj)
    | None => Raise (key_error x)
    end.
Proof.
  intros Hx. unfold output_markup, get_field_object.
  assert (Hchars : name_chars x = true).
  { unfold plain_name in Hx. now repeat (apply andb_prop in Hx as [Hx _]). }
  rewrite (field_name_split_name_chars x Hchars), (lookup_first_plain x Hx).
  destruct (dict_get x kwargs); reflexivity.
Qed.

(** A placeholder whose name is plain is looked up among the keyword
    arguments: its value's text goes to the output, or the scan stops with
    [KeyError]. *)
Lemma do_markup_placeholder (x : string) :
  plain_name x = true ->
  forall w rest,
    do_markup kwargs expand Literal w (placeholder x +:+ rest)
    = match dict_get x kwargs with
      | Some obj => do_markup kwargs expand Literal (w +:+ py_str obj) rest
      | None => Raise (key_error x)
      end.
Proof.
  intros Hx w rest.
  assert (Hchars : name_chars x = true).
  { unfold plain_name in Hx. now repeat (apply andb_prop in Hx as [Hx _]). }
  unfold placeholder. rewrite append_cons, append_chr.
  destruct x as [|c x]; [discriminate|].
  rewrite append_cons.
  assert (Hc : Ascii.eqb c lbrace = false).
  { apply classify_not_lbrace. simpl in Hchars.
    destruct (classify c); discriminate. }
  rewrite (do_markup_open c _ w Hc), <- append_cons.
  rewrite (do_markup_field_name (String c x) Hchars "" w rest).
  rewrite append_nil, (output_markup_plain (String c x) Hx).
  destruct (dict_get (String c x) kwargs); reflexivity.
Qed.

(** Once a prefix of the input has been formatted without an error, the
    scanner is back in literal text and goes on with the rest. *)
Lemma do_markup_prefix_bounded (n : nat) :
  forall pre st w out rest,
    String.length pre <= n ->
    do_markup kwargs expand st w pre = Ok out ->
    do_markup kwargs expand st w (pre +:+ rest)
    = do_markup kwargs expand Literal out rest.
Proof.
  induction n as [|n IH]; intros pre st w out rest Hlen Hok.
  - destruct pre; [|simpl in Hlen; lia].
    destruct st; simpl in Hok; try discriminate.
    injection Hok as ->. reflexivity.
  - destruct pre as [|c pre'].
    { destruct st; simpl in Hok; try discriminate.
      injection Hok as ->. reflexivity. }
    simpl in Hlen. rewrite append_cons.
    remember (pre' +:+ rest) as tail eqn:Htail.
    simpl in Hok. simpl.
    destruct st as [|name [|]|name|name conv|name conv spec nesting exp].
    + (* literal text *)
      destruct (classify c) eqn:Hc;
        try (subst tail; apply IH; [lia | exact Hok]).
      * destruct pre' as [|c' pre'']; [discriminate|].
        rewrite append_cons in Htail. subst tail. simpl in Hlen.
        destruct (Ascii.eqb c' lbrace).
        -- apply IH; [lia | exact Hok].
        -- rewrite <- append_cons. apply IH; [simpl; lia | exact Hok].
      * destruct pre' as [|c' pre'']; [discriminate|].
        rewrite append_cons in Htail. subst tail. simpl in Hlen.
        destruct (Ascii.eqb c' rbrace); [|discriminate].
        apply IH; [lia | exact Hok].
    + (* field name, inside brackets *)
      destruct (classify c); subst tail; apply IH; solve [lia | exact Hok].
    + (* field name *)
      destruct (classify c); try discriminate;
        try (subst tail; apply IH; [lia | exact Hok]).
      destruct (output_markup kwargs expand name nul "" false) as [text|e];
        [|discriminate].
      subst tail. apply IH; [lia | exact Hok].
    + (* conversion character *)
      subst tail. apply IH; [lia | exact Hok].
    + (* after the conversion *)
      destruct (classify c); try discriminate;
        try (subst tail; apply IH; [lia | exact Hok]).
      destruct (output_markup kwargs expand name conv "" false) as [text|e];
        [|discriminate].
      subst tail. apply IH; [lia | exact Hok].
    + (* format spec *)
      destruct (classify c);
        try (subst tail; apply IH; [lia | exact Hok]).
      destruct nesting as [|nesting'].
      * destruct (output_markup kwargs expand name conv spec exp) as [text|e];
          [|discriminate].
        subst tail. apply IH; [lia | exact Hok].
      * subst tail. apply IH; [lia | exact Hok].
Qed.

Lemma do_markup_prefix (pre : string) (st : scan) (w out rest : string) :
  do_markup kwargs expand st w pre = Ok out ->
  do_markup kwargs expand st w (pre +:+ rest)
  = do_markup kwargs expand Literal out rest.
Proof. apply (do_markup_prefix_bounded (String.length pre)). lia. Qed.

End Scanner.

Section Whole.
Context `{Runtime}.
Variable variables : dict.

Lemma str_format_unfold (body : string) :
  str_format body variables
  = do_markup variables (build_string variables 1) Literal "" body.
Proof. reflexivity. Qed.

(** Text without braces comes back as it is. *)
Lemma str_format_no_braces (body : string) :
  no_braces body = true -> str_format body variables = Ok body.
Proof.
  intros Hbody. rewrite str_format_unfold.
  transitivity
    (do_markup variables (build_string variables 1) Literal "" (body +:+ "")).
  { now rewrite append_empty_r. }
  rewrite (do_markup_literal _ _ body Hbody). reflexivity.
Qed.


(** Two placeholders in text without braces. *)
Lemma str_format_two (pre a mid b post : string) (va vb : value) :
  no_braces pre = true -> no_braces mid = true -> no_braces post = true ->
  plain_name a = true -> plain_name b = true ->
  dict_get a variables = Some va -> dict_get b variables = Some vb ->
  str_format (pre +:+ placeholder a +:+ mid +:+ placeholder b +:+ post) variables
  = Ok (pre +:+ py_str va +:+ mid +:+ py_str vb +:+ post).
Proof.
  intros Hpre Hmid Hpost Ha Hb Hva Hvb. rewrite str_format_unfold.
  rewrite (do_markup_literal _ _ pre Hpre).
  rewrite (do_markup_placeholder _ _ a Ha), Hva.
  rewrite (do_markup_literal _ _ mid Hmid).
  rewrite (do_markup_placeholder _ _ b Hb), Hvb.
  rewrite <- (append_empty_r post) at 1.
  rewrite (do_markup_literal _ _ post Hpost).
  cbn [do_markup]. rewrite append_nil, !append_assoc. reflexivity.
Qed.

End Whole.

End FormatFacts.

(** ** [POST /api/generate] *)

Module GenerateFacts.
Import Py Format Template Main TextFacts FormatFacts.

Section Generate.
Context `{Runtime} {store : Type}.
Variable create_document : string -> dict -> store -> result string * store.

Lemma merge_body (tmpl variables : dict) (body : string) :
  dict_get "body" tmpl = Some (VStr body) ->
  merge tmpl variables = str_format body variables.
Proof.
  intros Hbody. unfold merge, dict_get_default. now rewrite Hbody.
Qed.

(** A merge that raises ends the call before the store is reached. *)
Lemma generate_merge_raises (tmpl variables : dict) (e : exn) (db : store) :
  merge tmpl variables = Raise e ->
  generate_document create_document
    {| template := tmpl; variables := variables |} db
  = (generate_except e, db).
Proof. intros Hm. unfold generate_document. simpl. now rewrite Hm. Qed.

(** After a merge that succeeds the outcome is that of the one call to the
    store. *)
Lemma generate_merge_ok (tmpl variables : dict) (filled : string) (db : store) :
  merge tmpl variables = Ok filled ->
  generate_document create_document
    {| template := tmpl; variables := variables |} db
  = match create_document "document" (generated_doc tmpl variables filled) db with
    | (Ok new_id, db') =>
        (Returns [("id", VStr new_id); ("content", VStr filled)], db')
    | (Raise e, db') => (generate_except e, db')
    end.
Proof. intros Hm. unfold generate_document. simpl. now rewrite Hm. Qed.



(** C2, as amended.  For a body made of text without braces around the
    placeholders for two plain key names [a] and [b], and variables holding
    both, the merge gives the body with each placeholder replaced by
    [str()] of its value and every other character unchanged; when the
    store accepts the record, the call returns that text as [content]. *)
Theorem merge_two_placeholders
    (tmpl variables : dict) (pre a mid b post : string) (va vb : value) :
  dict_get "body" tmpl
  = Some (VStr (pre +:+ placeholder a +:+ mid +:+ placeholder b +:+ post)) ->
  no_braces pre = true -> no_braces mid = true -> no_braces post = true ->
  plain_name a = true -> plain_name b = true ->
  dict_get a variables = Some va -> dict_get b variables = Some vb ->
  merge tmpl variables
  = Ok (pre +:+ py_str va +:+ mid +:+ py_str vb +:+ post)
  /\ forall (db db' : store) (new_id : string),
       create_document "document"
         (generated_doc tmpl variables
            (pre +:+ py_str va +:+ mid +:+ py_str vb +:+ post)) db
       = (Ok new_id, db') ->
       generate_document create_document
         {| template := tmpl; variables := variables |} db
       = (Returns
            [("id", VStr new_id);
             ("content",
              VStr (pre +:+ py_str va +:+ mid +:+ py_str vb +:+ post))],
          db').
Proof.
  intros Hbody Hpre Hmid Hpost Ha Hb Hva Hvb.
  assert (Hm : merge tmpl variables
               = Ok (pre +:+ py_str va +:+ mid +:+ py_str vb +:+ post)).
  { rewrite (merge_body _ _ _ Hbody).
    now apply str_format_two. }
  split; [exact Hm|].
  intros db db' new_id Hcreate.
  now rewrite (generate_merge_ok _ _ _ db Hm), Hcreate.
Qed.

(** C3, as amended.  A body with no brace character in it merges to itself,
    whatever the variables are. *)
Theorem merge_no_braces (tmpl variables : dict) (body : string) :
  dict_get "body" tmpl = Some (VStr body) ->
  no_braces body = true ->
  merge tmpl variables = Ok body.
Proof.
  intros Hbody Hplain. rewrite (merge_body _ _ _ Hbody).
  now apply str_format_no_braces.
Qed.

(** C9.  A call that succeeds made one call to the store: it handed a
    record to the "document" collection whose [template_id] is [None],
    whatever the template holds. *)
Theorem generate_template_id_none
    (payload : GeneratePayload) (db db' : store) (response : dict) :
  generate_document create_document payload db = (Returns response, db') ->
  exists (filled new_id : string),
    let doc := generated_doc (template payload) (variables payload) filled in
    create_document "document" doc db = (Ok new_id, db')
    /\ dict_get "template_id" doc = Some VNone
    /\ response = [("id", VStr new_id); ("content", VStr filled)].
Proof.
  unfold generate_document. intros Hgen.
  destruct (merge (template payload) (variables payload)) as [filled|e].
  - destruct (create_document "document" _ db) as [[new_id|e] db1] eqn:Hcreate.
    + injection Hgen as <- <-. exists filled, new_id. repeat split. exact Hcreate.
    + unfold generate_except in Hgen. destruct (is_KeyError e); discriminate.
  - unfold generate_except in Hgen. destruct (is_KeyError e); discriminate.
Qed.

(** C10.  A template without a "body" entry is merged as the empty string:
    the merge succeeds for every variable mapping, the record handed to the
    "document" collection has the empty string as [content] (and
    "Generated Document" as [title] when "name" is absent too), and the
    [content] returned once the store has taken the record is the empty
    string. *)
Theorem generate_without_body (tmpl variables : dict) (db : store) :
  dict_get "body" tmpl = None ->
  merge tmpl variables = Ok ""
  /\ dict_get "content" (generated_doc tmpl variables "") = Some (VStr "")
  /\ (dict_get "name" tmpl = None ->
      dict_get "title" (generated_doc tmpl variables "")
      = Some (VStr "Generated Document"))
  /\ generate_document create_document
       {| template := tmpl; variables := variables |} db
     = match create_document "document" (generated_doc tmpl variables "") db with
       | (Ok new_id, db') =>
           (Returns [("id", VStr new_id); ("content", VStr "")], db')
       | (Raise e, db') => (generate_except e, db')
       end.
Proof.
  intros Hbody.
  assert (Hm : merge tmpl variables = Ok "").
  { unfold merge, dict_get_default. now rewrite Hbody. }
  repeat split.
  - exact Hm.
  - intros Hname. unfold generated_doc, dict_get_default. now rewrite Hname.
  - now apply generate_merge_ok.
Qed.

End Generate.

End GenerateFacts.

(** *** The calls of the spec's scenarios, run *)

Module GenerateScenarios.
Import Py Format Template Main TextFacts FormatFacts GenerateFacts Examples.



(** The NDA scenario: the content is "Agreement between Acme and Beta." and
    the identifier is not empty. *)
Lemma merge_two_placeholders_nda :
  (dict_get "body" nda_template
   = Some (VStr ("Agreement between " +:+ placeholder "party_a_name"
                 +:+ " and " +:+ placeholder "party_b_name" +:+ "."))
   /\ no_braces "Agreement between " = true
   /\ no_braces " and " = true
   /\ no_braces "." = true
   /\ plain_name "party_a_name" = true
   /\ plain_name "party_b_name" = true
   /\ dict_get "party_a_name" nda_variables = Some (VStr "Acme")
   /\ dict_get "party_b_name" nda_variables = Some (VStr "Beta"))
  /\ @merge runtime nda_template nda_variables
     = Ok "Agreement between Acme and Beta."
  /\ fst (@generate_document runtime Store.store Store.create_document
            {| template := nda_template; variables := nda_variables |}
            Store.empty)
     = Returns [("id", VStr "0");
                ("content", VStr "Agreement between Acme and Beta.")].
Proof.
  split; [repeat split|].
  pose proof (@merge_two_placeholders runtime Store.store Store.create_document
                nda_template nda_variables
                "Agreement between " "party_a_name" " and " "party_b_name" "."
                (VStr "Acme") (VStr "Beta")
                eq_refl eq_refl eq_refl eq_refl eq_refl eq_refl eq_refl eq_refl)
    as [Hmerge Hgen].
  split; [exact Hmerge|].
  now rewrite (Hgen Store.empty _ "0" eq_refl).
Defined.

(** A stray closing brace next to the two placeholders: both keys are
    there, and the merge raises. *)
Lemma merge_two_placeholders_stray_brace :
  occurs_in (placeholder "party_a_name")
    "Agreement between {party_a_name} and {party_b_name} (draft}." = true
  /\ occurs_in (placeholder "party_b_name")
       "Agreement between {party_a_name} and {party_b_name} (draft}." = true
  /\ (forall (R : Runtime) (va vb : value),
        merge
          [("body",
            VStr "Agreement between {party_a_name} and {party_b_name} (draft}.")]
          [("party_a_name", va); ("party_b_name", vb)]
        = Raise (value_error "Single '}' encountered in format string")).
Proof. repeat split. Qed.

(** A body of plain text merges to itself. *)
Lemma merge_no_braces_plain_text :
  (dict_get "body" [("body", VStr "Terms to be agreed.")]
   = Some (VStr "Terms to be agreed.")
   /\ no_braces "Terms to be agreed." = true)
  /\ @merge runtime [("body", VStr "Terms to be agreed.")] []
     = Ok "Terms to be agreed.".
Proof.
  split; [repeat split|].
  exact (@merge_no_braces runtime [("body", VStr "Terms to be agreed.")] []
           "Terms to be agreed." eq_refl eq_refl).
Defined.

(** A body with no placeholder in it, only a closing brace: the merge
    raises instead of returning the body. *)
Lemma merge_closing_brace_raises :
  (forall x : string, occurs_in (placeholder x) "Fees due } net 30" = false)
  /\ (forall (R : Runtime) (variables : dict),
        merge [("body", VStr "Fees due } net 30")] variables
        = Raise (value_error "Single '}' encountered in format string")).
Proof. split; intros; reflexivity. Qed.

(** A template that carries an identifier of its own: the stored record
    has [template_id] [None] all the same. *)
Lemma generate_template_id_none_nda :
  @generate_document runtime Store.store Store.create_document
    {| template := ("id", VStr "tpl-7") :: nda_template;
       variables := nda_variables |} Store.empty
  = (Returns [("id", VStr "0");
              ("content", VStr "Agreement between Acme and Beta.")],
     snd (Store.create_document "document"
            (generated_doc (("id", VStr "tpl-7") :: nda_template) nda_variables
               "Agreement between Acme and Beta.") Store.empty))
  /\ exists (filled new_id : string),
       let doc := generated_doc (("id", VStr "tpl-7") :: nda_template)
                    nda_variables filled in
       Store.create_document "document" doc Store.empty
       = (Ok new_id,
          snd (Store.create_document "document"
                 (generated_doc (("id", VStr "tpl-7") :: nda_template)
                    nda_variables "Agreement between Acme and Beta.")
                 Store.empty))
       /\ dict_get "template_id" doc = Some VNone
       /\ [("id", VStr "0"); ("content", VStr "Agreement between Acme and Beta.")]
          = [("id", VStr new_id); ("content", VStr filled)].
Proof.
  split; [reflexivity|].
  exact (@generate_template_id_none runtime Store.store Store.create_document
           {| template := ("id", VStr "tpl-7") :: nda_template;
              variables := nda_variables |}
           Store.empty _ _ eq_refl).
Defined.

(** A template with neither "body" nor "name". *)
Lemma generate_without_body_empty_template :
  dict_get "body" [("category", VStr "hr")] = None
  /\ @merge runtime [("category", VStr "hr")] nda_variables = Ok ""
  /\ fst (@generate_document runtime Store.store Store.create_document
            {| template := [("category", VStr "hr")];
               variables := nda_variables |} Store.empty)
     = Returns [("id", VStr "0"); ("content", VStr "")].
Proof.
  split; [reflexivity|].
  pose proof (@generate_without_body runtime Store.store Store.create_document
                [("category", VStr "hr")] nda_variables Store.empty eq_refl)
    as (Hmerge & _ & _ & Hgen).
  split; [exact Hmerge|].
  now rewrite Hgen.
Defined.

End GenerateScenarios.

(** ** Dictionaries *)

Module DictFacts.
Import Py.

Lemma dict_get_set_eq (k : string) (v : value) (d : dict) :
  dict_get k (dict_set k v d) = Some v.
Proof.
  induction d as [|[k' v'] d IH]; simpl.
  - now rewrite String.eqb_refl.
  - destruct (String.eqb k k') eqn:Hk; simpl; now rewrite Hk.
Qed.

Lemma dict_get_set_ne (k k' : string) (v : value) (d : dict) :
  k <> k' -> dict_get k' (dict_set k v d) = dict_get k' d.
Proof.
  intros Hne. induction d as [|[k0 v0] d IH]; simpl.
  - destruct (String.eqb k' k) eqn:Hk; [|reflexivity].
    apply String.eqb_eq in Hk. congruence.
  - destruct (String.eqb k k0) eqn:Hk; simpl.
    + apply String.eqb_eq in Hk. subst k0.
      destruct (String.eqb k' k) eqn:Hk'; [|reflexivity].
      apply String.eqb_eq in Hk'. congruence.
    + now rewrite IH.
Qed.

(** A new key goes last. *)
Lemma dict_set_new (k : string) (v : value) (d : dict) :
  ~ In k (keys d) -> dict_set k v d = (d ++ [(k, v)])%list.
Proof.
  unfold keys.
  induction d as [|[k' v'] d IH]; simpl; intros Hnot; [reflexivity|].
  destruct (String.eqb k k') eqn:Hk.
  - apply String.eqb_eq in Hk. subst k'. tauto.
  - rewrite IH; [reflexivity | tauto].
Qed.

End DictFacts.

(** ** [GET /api/templates/defaults], [GET /test], [GET /schema] *)

Module StaticFacts.
Import Py Schemas Main DictFacts.

(** C5.  The catalog is one fixed list of three entries, each with the
    fields name, category, variables and body in that order; the handler
    returns it for every store, in whatever state, and leaves the store as
    it was. *)
Theorem default_templates_fixed :
  exists catalog : list dict,
    length catalog = 3
    /\ Forall (fun d => keys d = ["name"; "category"; "variables"; "body"]) catalog
    /\ forall (store : Type) (db : store),
         default_templates db = (Returns catalog, db).
Proof.
  eexists. split; [|split].
  3: { intros store db. reflexivity. }
  - reflexivity.
  - repeat constructor.
Qed.

(** [s[:n]] holds at most [n] characters. *)
Lemma str_take_length (n : nat) (s : string) :
  String.length (str_take n s) <= n.
Proof.
  revert s. induction n as [|n IH]; intros [|c s]; simpl; try lia.
  specialize (IH s). lia.
Qed.

(** C7.  The diagnostic handler is a total function of the environment and
    of what importing [db] gave: for each of these states it returns the
    six-field status object.  [database] and [connection_status] describe
    the state (an error's text cut to 50 characters), [database_url] and
    [database_name] say "Set" when the variable is in the environment with
    a value that is not empty and "Not Set" when it is absent or empty, and
    [collections] lists at most 10 names. *)
Theorem test_database_reports (env : environ) (imported : result (option Database)) :
  keys (test_database env imported)
  = ["backend"; "database"; "database_url"; "database_name";
     "connection_status"; "collections"]
  /\ dict_get "backend" (test_database env imported) = Some (VStr "✅ Running")
  /\ dict_get "database_url" (test_database env imported)
     = Some (VStr match DATABASE_URL env with
                  | Some (String _ _) => "✅ Set"
                  | Some EmptyString | None => "❌ Not Set"
                  end)
  /\ dict_get "database_name" (test_database env imported)
     = Some (VStr match DATABASE_NAME env with
                  | Some (String _ _) => "✅ Set"
                  | Some EmptyString | None => "❌ Not Set"
                  end)
  /\ dict_get "database" (test_database env imported)
     = Some (VStr
         match imported with
         | Raise e => "❌ Error: " +:+ str_take 50 (exn_str e)
         | Ok None => "⚠️  Available but not initialized"
         | Ok (Some db) =>
             match list_collection_names db with
             | Ok _ => "✅ Connected & Working"
             | Raise e => "⚠️  Connected but Error: " +:+ str_take 50 (exn_str e)
             end
         end)
  /\ dict_get "connection_status" (test_database env imported)
     = Some (VStr match imported with
                  | Ok (Some _) => "Connected"
                  | _ => "Not Connected"
                  end)
  /\ exists names : list string,
       dict_get "collections" (test_database env imported)
       = Some (VList (map VStr names))
       /\ length names <= 10
       /\ names = match imported with
                  | Ok (Some db) =>
                      match list_collection_names db with
                      | Ok collections => firstn 10 collections
                      | Raise _ => []
                      end
                  | _ => []
                  end.
Proof.
  destruct env as [[[|c url]|] [[|c' name']|]];
    destruct imported as [[[name [collections|e]]|]|e];
    repeat (split; [reflexivity|]);
    eexists; (split; [|split; [|reflexivity]]);
    try reflexivity; simpl; try lia.
  all: rewrite length_take; lia.
Qed.

(** The loop of [model_info] over fields with distinct names gives one
    entry for each field, in order. *)
Lemma model_info_loop (fields : list (string * annotation)) (acc : dict) :
  NoDup (keys acc ++ map fst fields) ->
  fold_left
    (fun fields nf => dict_set (fst nf) (VStr (str_annotation (snd nf))) fields)
    fields acc
  = (acc ++ map (fun nf => (fst nf, VStr (str_annotation (snd nf)))) fields)%list.
Proof.
  revert acc. induction fields as [|[name a] fields IH]; intros acc Hnodup; simpl.
  - now rewrite app_nil_r.
  - simpl in Hnodup. apply NoDup_app in Hnodup as (Hacc & Hdisj & Hfields).
    apply NoDup_cons in Hfields as [Hname Hfields].
    rewrite dict_set_new.
    + rewrite IH.
      * now rewrite <- app_assoc.
      * unfold keys. rewrite map_app. simpl. rewrite <- app_assoc. simpl.
        apply NoDup_app. split; [exact Hacc|]. split.
        -- intros k Hk. apply Hdisj. exact Hk.
        -- apply NoDup_cons. split; assumption.
    + intros Hin. apply (Hdisj name).
      * apply list_elem_of_In. exact Hin.
      * left.
Qed.

Lemma model_info_fields (m : model) :
  NoDup (map fst (model_fields m)) ->
  model_info m
  = [("name", VStr (lower (model_name m)));
     ("fields",
      VDict (map (fun nf => (fst nf, VStr (str_annotation (snd nf))))
               (model_fields m)))].
Proof.
  intros Hnodup. unfold model_info.
  now rewrite (model_info_loop (model_fields m) [] Hnodup).
Qed.

(** C8.  When the five models import, the overview lists each of Client,
    Matter, DocumentTemplate, Document and Task under its lower-case name
    with one entry for every declared field, holding [str()] of the field's
    annotation; when the import raises, the answer is a payload with the
    error's text, not an HTTP failure. *)
Theorem schema_overview_lists_models :
  schema_overview (Ok tt)
  = [("collections",
      VList (map (fun m =>
                    VDict [("name", VStr (lower (model_name m)));
                           ("fields",
                            VDict (map (fun nf =>
                                          (fst nf, VStr (str_annotation (snd nf))))
                                     (model_fields m)))])
               [Client; Matter; DocumentTemplate; Document; Task]))]
  /\ map (fun m => lower (model_name m))
       [Client; Matter; DocumentTemplate; Document; Task]
     = ["client"; "matter"; "documenttemplate"; "document"; "task"]
  /\ dict_get "fields" (model_info Client)
     = Some (VDict [
         ("name", VStr "<class 'str'>");
         ("email", VStr "typing.Optional[pydantic.networks.EmailStr]");
         ("phone", VStr "typing.Optional[str]");
         ("company_type", VStr "typing.Optional[str]");
         ("jurisdiction", VStr "typing.Optional[str]");
         ("founders", VStr "typing.Optional[typing.List[typing.Dict]]")])
  /\ forall e : exn, schema_overview (Raise e) = [("error", VStr (exn_str e))].
Proof. repeat split. Qed.

End StaticFacts.

(** ** [/api/collections/{collection}] *)

Module CollectionFacts.
Import Py Main DictFacts TextFacts.

Section Listing.
Context `{Runtime} {store : Type}.
Variable get_documents : string -> Z -> store -> result (list dict) * store.

Lemma stringify_loop (docs acc : list dict) :
  fold_left (fun result d => (result ++ [stringify_id d])%list) docs acc
  = (acc ++ map stringify_id docs)%list.
Proof.
  revert acc. induction docs as [|d docs IH]; intros acc; simpl.
  - now rewrite app_nil_r.
  - rewrite IH, <- app_assoc. reflexivity.
Qed.

Lemma list_items_outcome (collection : string) (limit : option Z) (db : store) :
  list_items get_documents collection limit db
  = match get_documents collection
            (match limit with Some n => n | None => 50%Z end) db with
    | (Ok docs, db') => (Returns (map stringify_id docs), db')
    | (Raise e, db') => (HTTPException 400 (exn_str e), db')
    end.
Proof.
  unfold list_items.
  destruct (get_documents collection _ db) as [[docs|e] db']; [|reflexivity].
  now rewrite stringify_loop.
Qed.

(** C6.  Without a limit the handler asks the store for 50 records.  What
    the store returns comes back record by record, in the same order, with
    [str()] of the record's identifier under "_id" and every other field as
    it was; when the store raises, the answer is status 400 with the
    exception's text as detail. *)
Theorem list_items_limit_ids_failure (collection : string) (db : store) :
  list_items get_documents collection None db
  = list_items get_documents collection (Some 50%Z) db
  /\ (forall limit : option Z,
        list_items get_documents collection limit db
        = match get_documents collection
                  (match limit with Some n => n | None => 50%Z end) db with
          | (Ok docs, db') => (Returns (map stringify_id docs), db')
          | (Raise e, db') => (HTTPException 400 (exn_str e), db')
          end)
  /\ (forall d : dict,
        dict_get "_id" (stringify_id d)
        = Some (VStr (py_str (dict_get_default "_id" VNone d)))
        /\ forall k : string,
             k <> "_id" -> dict_get k (stringify_id d) = dict_get k d)
  /\ (forall (d : dict) (n : N),
        dict_get "_id" d = Some (VId n) ->
        dict_get "_id" (stringify_id d) = Some (VStr (id_text n))).
Proof.
  split; [reflexivity|]. split.
  { intros limit. apply list_items_outcome. }
  split.
  - intros d. unfold stringify_id. split.
    + apply dict_get_set_eq.
    + intros k Hk. apply dict_get_set_ne. congruence.
  - intros d n Hid. unfold stringify_id, dict_get_default.
    rewrite Hid. apply dict_get_set_eq.
Qed.

End Listing.

End CollectionFacts.

(** ** More on the merge of [generate_document] *)

Module MergeFacts.
Import Py Format Template Main TextFacts FormatFacts GenerateFacts.

Section Scanner.
Context `{Runtime}.
Variable kwargs : dict.
Variable expand : string -> result string.

(** A field whose name has no field syntax in it is handed to
    [output_markup] whole; the name may be empty or a number. *)
Lemma do_markup_field (x : string) :
  name_chars x = true ->
  forall w rest,
    do_markup kwargs expand Literal w (placeholder x +:+ rest)
    = (text ← output_markup kwargs expand x nul "" false;
       do_markup kwargs expand Literal (w +:+ text) rest).
Proof.
  intros Hx w rest. unfold placeholder. rewrite append_cons, append_chr.
  destruct x as [|c x].
  - rewrite append_nil. rewrite do_markup_open by reflexivity.
    exact (do_markup_field_name kwargs expand "" eq_refl "" w rest).
  - rewrite append_cons.
    assert (Hc : Ascii.eqb c lbrace = false).
    { apply classify_not_lbrace. simpl in Hx.
      destruct (classify c); discriminate. }
    rewrite (do_markup_open _ _ c _ w Hc), <- append_cons.
    now rewrite (do_markup_field_name _ _ (String c x) Hx "" w rest).
Qed.

(** Doubled braces are one literal brace. *)
Lemma do_markup_open_brace (w rest : string) :
  do_markup kwargs expand Literal w ("{{" +:+ rest)
  = do_markup kwargs expand Literal (w +:+ "{") rest.
Proof. reflexivity. Qed.

Lemma do_markup_close_brace (w rest : string) :
  do_markup kwargs expand Literal w ("}}" +:+ rest)
  = do_markup kwargs expand Literal (w +:+ "}") rest.
Proof. reflexivity. Qed.

(** A closing brace on its own. *)
Lemma do_markup_single_close (w rest : string) :
  starts_with "}" rest = false ->
  do_markup kwargs expand Literal w (String rbrace rest)
  = Raise (value_error "Single '}' encountered in format string").
Proof.
  intros Hrest. cbn [do_markup]. rewrite classify_rbrace.
  destruct rest as [|c rest]; [reflexivity|].
  cbn [starts_with] in Hrest. rewrite andb_true_r in Hrest.
  rewrite Ascii.eqb_sym in Hrest. unfold rbrace. now rewrite Hrest.
Qed.

(** Scanning a well-formed list of segments is [fill]. *)
Lemma do_markup_segments (segments : list segment) :
  forallb well_formed segments = true ->
  forall w,
    do_markup kwargs expand Literal w (body_of segments)
    = (rest ← fill kwargs segments; Ok (w +:+ rest)).
Proof.
  induction segments as [|g segments IH]; intros Hwf w.
  - simpl. now rewrite append_empty_r.
  - simpl in Hwf. apply andb_prop in Hwf as [Hg Hwf].
    cbn [body_of fill].
    destruct g as [s|x| |]; cbn [segment_text well_formed] in *.
    + rewrite (do_markup_literal _ _ s Hg), (IH Hwf). simpl.
      destruct (fill kwargs segments); simpl; [|reflexivity].
      now rewrite append_assoc.
    + rewrite (do_markup_placeholder _ _ x Hg).
      destruct (dict_get x kwargs) as [v|]; [|reflexivity].
      rewrite (IH Hwf). simpl.
      destruct (fill kwargs segments); simpl; [|reflexivity].
      now rewrite append_assoc.
    + rewrite do_markup_open_brace, (IH Hwf). simpl.
      destruct (fill kwargs segments); simpl; [|reflexivity].
      now rewrite append_assoc.
    + rewrite do_markup_close_brace, (IH Hwf). simpl.
      destruct (fill kwargs segments); simpl; [|reflexivity].
      now rewrite append_assoc.
Qed.

End Scanner.

(** *** More variables than the body asks for *)

Section Extends.
Context `{Runtime}.
Variables kwargs kwargs' : dict.
Hypothesis Hext : extends kwargs kwargs'.

Lemma lookup_first_extends (first : string) (obj : value) :
  lookup_first kwargs first = Ok obj -> lookup_first kwargs' first = Ok obj.
Proof.
  unfold lookup_first. destruct (get_integer first); try discriminate.
  destruct first as [|c first]; [discriminate|].
  destruct (dict_get (String c first) kwargs) as [v|] eqn:Hv; [|discriminate].
  intros [= <-]. now rewrite (Hext _ _ Hv).
Qed.

Lemma get_field_object_extends (field_name : string) (obj : value) :
  get_field_object kwargs field_name = Ok obj ->
  get_field_object kwargs' field_name = Ok obj.
Proof.
  unfold get_field_object. destruct (field_name_split field_name) as [first rest].
  destruct (lookup_first kwargs first) as [v|e] eqn:Hv; [|discriminate].
  now rewrite (lookup_first_extends _ _ Hv).
Qed.

Section Expand.
Variables expand expand' : string -> result string.
Hypothesis Hexpand : forall s t, expand s = Ok t -> expand' s = Ok t.

Lemma output_markup_extends
    (field_name : string) (conversion : ascii) (format_spec : string)
    (needs_expanding : bool) (text : string) :
  output_markup kwargs expand field_name conversion format_spec needs_expanding
  = Ok text ->
  output_markup kwargs' expand' field_name conversion format_spec needs_expanding
  = Ok text.
Proof.
  unfold output_markup.
  destruct (get_field_object kwargs field_name) as [obj|e] eqn:Hobj;
    [|discriminate].
  rewrite (get_field_object_extends _ _ Hobj). simpl.
  destruct (if Ascii.eqb conversion nul then Ok obj
            else do_conversion obj conversion) as [obj'|e]; [|discriminate].
  simpl. destruct needs_expanding; [|trivial].
  destruct (expand format_spec) as [spec|e] eqn:Hspec; [|discriminate].
  now rewrite (Hexpand _ _ Hspec).
Qed.

Lemma do_markup_extends_bounded (n : nat) :
  forall input st w out,
    String.length input <= n ->
    do_markup kwargs expand st w input = Ok out ->
    do_markup kwargs' expand' st w input = Ok out.
Proof.
  induction n as [|n IH]; intros input st w out Hlen Hok.
  - destruct input; [|simpl in Hlen; lia].
    destruct st; simpl in *; congruence.
  - destruct input as [|c rest].
    { destruct st; simpl in *; congruence. }
    simpl in Hlen. simpl in Hok. simpl.
    destruct st as [|name [|]|name|name conv|name conv spec nesting exp].
    + destruct (classify c) eqn:Hc; try (apply IH; [lia | exact Hok]).
      * destruct rest as [|c' rest']; [discriminate|]. simpl in Hlen.
        destruct (Ascii.eqb c' lbrace); apply IH; solve [simpl; lia | exact Hok].
      * destruct rest as [|c' rest']; [discriminate|]. simpl in Hlen.
        destruct (Ascii.eqb c' rbrace); [|discriminate].
        apply IH; [lia | exact Hok].
    + destruct (classify c); apply IH; solve [lia | exact Hok].
    + destruct (classify c); try discriminate;
        try (apply IH; [lia | exact Hok]).
      destruct (output_markup kwargs expand name nul "" false)
        as [text|e] eqn:Hout; [|discriminate].
      rewrite (output_markup_extends _ _ _ _ _ Hout). simpl in *.
      apply IH; [lia | exact Hok].
    + apply IH; [lia | exact Hok].
    + destruct (classify c); try discriminate;
        try (apply IH; [lia | exact Hok]).
      destruct (output_markup kwargs expand name conv "" false)
        as [text|e] eqn:Hout; [|discriminate].
      rewrite (output_markup_extends _ _ _ _ _ Hout). simpl in *.
      apply IH; [lia | exact Hok].
    + destruct (classify c); try (apply IH; [lia | exact Hok]).
      destruct nesting as [|nesting'].
      * destruct (output_markup kwargs expand name conv spec exp)
          as [text|e] eqn:Hout; [|discriminate].
        rewrite (output_markup_extends _ _ _ _ _ Hout). simpl in *.
        apply IH; [lia | exact Hok].
      * apply IH; [lia | exact Hok].
Qed.

End Expand.

Lemma build_string_extends (depth : nat) :
  forall input out,
    build_string kwargs depth input = Ok out ->
    build_string kwargs' depth input = Ok out.
Proof.
  induction depth as [|depth IH]; intros input out Hok; [discriminate|].
  simpl in *.
  exact (do_markup_extends_bounded _ _ IH (String.length input)
           input Literal "" out (Nat.le_refl _) Hok).
Qed.

End Extends.

End MergeFacts.

Module MergeProperties.
Import Py Format Template Main TextFacts FormatFacts GenerateFacts MergeFacts.








Lemma dict_get_app_l (k : string) (v : value) (d extra : dict) :
  dict_get k d = Some v -> dict_get k (d ++ extra)%list = Some v.
Proof.
  induction d as [|[k' v'] d IH]; simpl; [discriminate|].
  destruct (String.eqb k k'); [trivial | exact IH].
Qed.

Lemma extends_app (d extra : dict) : extends d (d ++ extra)%list.
Proof. intros k v. apply dict_get_app_l. Qed.

Lemma digit_value_bound (c : ascii) (d : N) :
  digit_value c = Some d -> (d <= 9)%N.
Proof.
  unfold digit_value.
  destruct ((48 <=? N_of_ascii c) && (N_of_ascii c <=? 57))%N eqn:Hrange;
    [|discriminate].
  intros [= <-]. apply andb_prop in Hrange as [_ Hhi].
  apply N.leb_le in Hhi. lia.
Qed.

Lemma digit_value_classify (c : ascii) (d : N) :
  digit_value c = Some d -> classify c = Other.
Proof.
  destruct c as [b0 b1 b2 b3 b4 b5 b6 b7].
  destruct b0, b1, b2, b3, b4, b5, b6, b7; vm_compute; congruence.
Qed.

Lemma all_digits_name_chars (x : string) :
  all_digits x = true -> name_chars x = true.
Proof.
  induction x as [|c x IH]; [reflexivity|]. cbn [all_digits name_chars].
  destruct (digit_value c) as [d|] eqn:Hd; [|discriminate].
  now rewrite (digit_value_classify c d Hd).
Qed.

Lemma decimal_from_ge (s : string) (accumulator : N) :
  (accumulator <= decimal_from accumulator s)%N.
Proof.
  revert accumulator. induction s as [|c s IH]; intros accumulator; simpl; [lia|].
  specialize (IH (accumulator * 10 + default 0%N (digit_value c))%N). lia.
Qed.

(** [get_integer_from] on digits: the number they write, unless it is
    above [PY_SSIZE_T_MAX]. *)
Lemma get_integer_from_digits (s : string) :
  all_digits s = true ->
  forall accumulator : N,
    (accumulator <= PY_SSIZE_T_MAX)%N ->
    get_integer_from accumulator s
    = if (decimal_from accumulator s <=? PY_SSIZE_T_MAX)%N
      then Index (decimal_from accumulator s) else TooManyDigits.
Proof.
  induction s as [|c s IH]; intros Hs accumulator Hacc.
  - simpl. apply N.leb_le in Hacc. now rewrite Hacc.
  - cbn [all_digits] in Hs. cbn [get_integer_from decimal_from].
    destruct (digit_value c) as [d|] eqn:Hd; [|discriminate].
    pose proof (digit_value_bound c d Hd) as Hd9.
    change (default 0%N (Some d)) with d.
    pose proof (N.div_mod (PY_SSIZE_T_MAX - d) 10 ltac:(lia)) as Hdiv.
    pose proof (N.mod_lt (PY_SSIZE_T_MAX - d) 10 ltac:(lia)) as Hmod.
    unfold PY_SSIZE_T_MAX in *.
    destruct ((9223372036854775807 - d) / 10 <? accumulator)%N eqn:Hover.
    + apply N.ltb_lt in Hover.
      pose proof (decimal_from_ge s (accumulator * 10 + d)%N) as Hge.
      replace (decimal_from (accumulator * 10 + d) s <=? 9223372036854775807)%N
        with false; [reflexivity|].
      symmetry. apply N.leb_gt.
      generalize dependent (decimal_from (accumulator * 10 + d) s).
      clear IH Hd Hs. intros value Hge. lia.
    + apply N.ltb_ge in Hover. apply (IH Hs). clear IH Hd Hs.
      set (q := ((9223372036854775807 - d) / 10)%N) in *.
      set (r := ((9223372036854775807 - d) mod 10)%N) in *.
      clearbody q r. lia.
Qed.

Lemma get_integer_digits (x : string) :
  all_digits x = true -> x <> "" ->
  get_integer x
  = if (decimal_value x <=? PY_SSIZE_T_MAX)%N
    then Index (decimal_value x) else TooManyDigits.
Proof.
  intros Hx Hne. destruct x as [|c x]; [congruence|].
  unfold get_integer, decimal_value.
  apply (get_integer_from_digits _ Hx). unfold PY_SSIZE_T_MAX. lia.
Qed.

Section Merge.
Context `{Runtime}.

Lemma str_format_segments (variables : dict) (segments : list segment) :
  forallb well_formed segments = true ->
  str_format (body_of segments) variables = fill variables segments.
Proof.
  intros Hwf. rewrite str_format_unfold.
  rewrite (do_markup_segments _ _ segments Hwf "").
  destruct (fill variables segments); reflexivity.
Qed.

(** [fill] succeeds exactly when every placeholder has a value. *)
Lemma fill_ok_iff (variables : dict) (segments : list segment) :
  (exists filled, fill variables segments = Ok filled)
  <-> Forall (fun x => dict_get x variables <> None) (holes segments).
Proof.
  induction segments as [|g segments IH]; cbn [fill holes].
  - split; [constructor | now exists ""].
  - destruct g as [s|x| |]; cbn [mbind result_bind].
    + rewrite <- IH. split; intros [filled Hf].
      * destruct (fill variables segments) as [rest|e]; [now exists rest | discriminate].
      * rewrite Hf. now eexists.
    + destruct (dict_get x variables) as [v|] eqn:Hv.
      * rewrite Forall_cons_iff, <- IH. split.
        -- intros [filled Hf]. split; [congruence|].
           destruct (fill variables segments) as [rest|e];
             [now exists rest | discriminate].
        -- intros [_ [rest Hf]]. rewrite Hf. now eexists.
      * split; [intros [filled Hf]; discriminate|].
        intros Hall. apply Forall_cons_iff in Hall as [Hx _]. congruence.
    + rewrite <- IH. split; intros [filled Hf].
      * destruct (fill variables segments) as [rest|e]; [now exists rest | discriminate].
      * rewrite Hf. now eexists.
    + rewrite <- IH. split; intros [filled Hf].
      * destruct (fill variables segments) as [rest|e]; [now exists rest | discriminate].
      * rewrite Hf. now eexists.
Qed.

End Merge.

End MergeProperties.

(** ** More on [POST /api/generate] *)

Module GenerateProperties.
Import Py Format Template Main TextFacts FormatFacts GenerateFacts MergeFacts
  MergeProperties.

Section Generate.
Context `{Runtime} {store : Type}.
Variable create_document : string -> dict -> store -> result string * store.

(** X1.  For a body spelled by text without braces, placeholders with
    plain names and doubled braces, the merge is the substitution [fill]:
    left to right, [str()] of the value for each placeholder, one brace for
    each doubled brace, [KeyError] for the first placeholder without a
    value. *)
Theorem merge_is_fill (tmpl variables : dict) (segments : list segment) :
  dict_get "body" tmpl = Some (VStr (body_of segments)) ->
  forallb well_formed segments = true ->
  merge tmpl variables = fill variables segments.
Proof.
  intros Hbody Hwf. rewrite (merge_body _ _ _ Hbody).
  now apply str_format_segments.
Qed.

(** X2.  Such a body merges exactly when the variables hold a value for
    every placeholder of the body. *)
Theorem merge_succeeds_iff_supplied (tmpl variables : dict) (segments : list segment) :
  dict_get "body" tmpl = Some (VStr (body_of segments)) ->
  forallb well_formed segments = true ->
  (exists filled, merge tmpl variables = Ok filled)
  <-> Forall (fun x => dict_get x variables <> None) (holes segments).
Proof.
  intros Hbody Hwf. rewrite (merge_body _ _ _ Hbody).
  rewrite (str_format_segments variables segments Hwf).
  apply fill_ok_iff.
Qed.

(** X3.  A placeholder whose name is empty or made of digits only is
    never filled from the variables, even when they hold that key.  After
    text that merges, the call fails with status 400 and the store is left
    as it was; the detail is "Replacement index N out of range for
    positional args tuple" for the number N the digits write (0 for the
    empty name), and "Too many decimal digits in format string" when that
    number is above 9223372036854775807. *)
Theorem generate_numbered_placeholder
    (tmpl variables : dict) (pre x post filled : string) (db : store) :
  dict_get "body" tmpl = Some (VStr (pre +:+ placeholder x +:+ post)) ->
  str_format pre variables = Ok filled ->
  all_digits x = true ->
  generate_document create_document
    {| template := tmpl; variables := variables |} db
  = (HTTPException 400
       (if (decimal_value x <=? PY_SSIZE_T_MAX)%N
        then "Replacement index " +:+ pretty (decimal_value x)
             +:+ " out of range for positional args tuple"
        else "Too many decimal digits in format string"), db).
Proof.
  intros Hbody Hpre Hx.
  pose proof (all_digits_name_chars x Hx) as Hchars.
  assert (Hraise :
    merge tmpl variables
    = Raise (if (decimal_value x <=? PY_SSIZE_T_MAX)%N
             then index_error (decimal_value x)
             else value_error "Too many decimal digits in format string")).
  { rewrite (merge_body _ _ _ Hbody), str_format_unfold.
    rewrite str_format_unfold in Hpre.
    rewrite (do_markup_prefix _ _ pre Literal "" filled _ Hpre).
    rewrite (do_markup_field _ _ x Hchars).
    unfold output_markup, get_field_object.
    rewrite (field_name_split_name_chars x Hchars). unfold lookup_first.
    destruct x as [|c x]; [reflexivity|].
    rewrite (get_integer_digits (String c x) Hx) by discriminate.
    now destruct (decimal_value (String c x) <=? PY_SSIZE_T_MAX)%N. }
  rewrite (generate_merge_raises create_document tmpl variables _ db Hraise).
  now destruct (decimal_value x <=? PY_SSIZE_T_MAX)%N.
Qed.

(** X4.  After text that merges, a closing brace not followed by another
    one, or an opening brace at the very end of the body, makes the call
    fail with status 400 and the detail "Single '}' (or '{') encountered in
    format string"; the store is left as it was. *)
Theorem generate_single_brace
    (tmpl variables : dict) (pre rest filled : string) (c : ascii) (db : store) :
  str_format pre variables = Ok filled ->
  (dict_get "body" tmpl = Some (VStr (pre +:+ String rbrace rest))
   /\ starts_with "}" rest = false /\ c = rbrace)
  \/ (dict_get "body" tmpl = Some (VStr (pre +:+ chr lbrace)) /\ c = lbrace) ->
  generate_document create_document
    {| template := tmpl; variables := variables |} db
  = (HTTPException 400
       ("Single '" +:+ chr c +:+ "' encountered in format string"), db).
Proof.
  intros Hpre Hbody. rewrite str_format_unfold in Hpre.
  destruct Hbody as [(Hbody & Hrest & ->)|(Hbody & ->)].
  - rewrite (generate_merge_raises create_document tmpl variables
               (value_error "Single '}' encountered in format string"));
      [reflexivity|].
    rewrite (merge_body _ _ _ Hbody), str_format_unfold.
    rewrite (do_markup_prefix _ _ pre Literal "" filled _ Hpre).
    now apply do_markup_single_close.
  - rewrite (generate_merge_raises create_document tmpl variables
               (value_error "Single '{' encountered in format string"));
      [reflexivity|].
    rewrite (merge_body _ _ _ Hbody), str_format_unfold.
    now rewrite (do_markup_prefix _ _ pre Literal "" filled _ Hpre).
Qed.

(** X5.  A "body" that is not text (a number, a list, null, ...) makes the
    call fail with status 400 and the detail "'<type>' object has no
    attribute 'format'", whatever the variables are; the store is left as
    it was. *)
Theorem generate_body_not_text (tmpl variables : dict) (body : value) (db : store) :
  dict_get "body" tmpl = Some body ->
  (forall text : string, body <> VStr text) ->
  generate_document create_document
    {| template := tmpl; variables := variables |} db
  = (HTTPException 400
       ("'" +:+ type_name body +:+ "' object has no attribute 'format'"), db).
Proof.
  intros Hbody Hnot.
  rewrite (generate_merge_raises create_document tmpl variables
             (Exn AttributeError
                ("'" +:+ type_name body +:+ "' object has no attribute 'format'")));
    [reflexivity|].
  unfold merge, dict_get_default. rewrite Hbody.
  destruct body; try reflexivity. now destruct (Hnot s).
Qed.

(** X6.  Variables the body does not ask for are ignored: a merge that
    succeeds gives the same text under any variables that keep the
    bindings it was run with. *)
Theorem merge_ignores_other_variables
    (tmpl variables variables' : dict) (filled : string) :
  extends variables variables' ->
  merge tmpl variables = Ok filled ->
  merge tmpl variables' = Ok filled.
Proof.
  intros Hext. unfold merge.
  destruct (dict_get_default "body" (VStr "") tmpl); try discriminate.
  cbn [call_format]. unfold str_format, format.
  apply (build_string_extends variables variables' Hext).
Qed.

(** X7.  A call that fails has status 400.  Either the merge raised, and
    then the store was not called and is as it was, or the merge succeeded
    and the one call to the store raised; the detail is the exception's
    text, after "Missing variable: " when the exception is a [KeyError]. *)
Theorem generate_failure_is_400
    (payload : GeneratePayload) (db db' : store) (code : Z) (detail : string) :
  generate_document create_document payload db = (HTTPException code detail, db') ->
  code = 400%Z
  /\ exists e : exn,
       detail = (if is_KeyError e then "Missing variable: " +:+ exn_str e
                 else exn_str e)
       /\ ((merge (template payload) (variables payload) = Raise e /\ db' = db)
           \/ exists filled : string,
                merge (template payload) (variables payload) = Ok filled
                /\ create_document "document"
                     (generated_doc (template payload) (variables payload) filled) db
                   = (Raise e, db')).
Proof.
  unfold generate_document. intros Hgen.
  destruct (merge (template payload) (variables payload)) as [filled|e] eqn:Hm.
  - destruct (create_document "document" _ db) as [[new_id|e] db1] eqn:Hc;
      [discriminate|].
    unfold generate_except in Hgen.
    destruct (is_KeyError e) eqn:He; injection Hgen as <- <- <-;
      (split; [reflexivity|]); exists e; rewrite He;
      (split; [reflexivity|]); right; exists filled;
      (split; [reflexivity | exact Hc]).
  - unfold generate_except in Hgen.
    destruct (is_KeyError e) eqn:He; injection Hgen as <- <- <-;
      (split; [reflexivity|]); exists e; rewrite He;
      (split; [reflexivity|]); left; (split; reflexivity).
Qed.


End Generate.

End GenerateProperties.

(** ** More on the other handlers *)

Module HandlerProperties.
Import Py Format Schemas Template Main TextFacts DictFacts FormatFacts
  GenerateFacts MergeFacts MergeProperties StaticFacts CollectionFacts.

Lemma dict_set_same (k : string) (v : value) (d : dict) :
  dict_get k d = Some v -> dict_set k v d = d.
Proof.
  induction d as [|[k' v'] d IH]; simpl; [discriminate|].
  destruct (String.eqb k k') eqn:Hk.
  - now intros [= ->].
  - intros Hd. now rewrite (IH Hd).
Qed.

Lemma dict_get_none_keys (k : string) (d : dict) :
  dict_get k d = None -> ~ In k (keys d).
Proof.
  unfold keys. induction d as [|[k' v'] d IH]; simpl; [tauto|].
  destruct (String.eqb k k') eqn:Hk; [discriminate|].
  apply String.eqb_neq in Hk. intros Hd [Heq|Hin]; [congruence | now apply IH].
Qed.

Lemma dict_get_in (k : string) (v : value) (d : dict) :
  NoDup (keys d) -> In (k, v) d -> dict_get k d = Some v.
Proof.
  unfold keys. induction d as [|[k' v'] d IH]; simpl; [tauto|].
  intros Hnodup Hin. apply NoDup_cons in Hnodup as [Hk' Hnodup].
  destruct Hin as [[= -> ->]|Hin].
  - now rewrite String.eqb_refl.
  - destruct (String.eqb k k') eqn:Hk; [|now apply IH].
    apply String.eqb_eq in Hk. subst k'. exfalso. apply Hk'.
    apply list_elem_of_In. apply (in_map fst) in Hin. exact Hin.
Qed.

Lemma str_take_prefix (n : nat) (s : string) : starts_with (str_take n s) s = true.
Proof.
  revert s. induction n as [|n IH]; intros [|c s]; try reflexivity.
  cbn [str_take starts_with]. now rewrite Ascii.eqb_refl, IH.
Qed.

Lemma str_take_split (n : nat) (s : string) :
  exists dropped : string, s = str_take n s +:+ dropped.
Proof.
  revert s. induction n as [|n IH]; intros s.
  - exists s. now destruct s.
  - destruct s as [|c s]; [now exists ""|].
    destruct (IH s) as [dropped Hs]. exists dropped.
    cbn [str_take]. rewrite append_cons. now rewrite <- Hs.
Qed.

Lemma str_take_length_min (n : nat) (s : string) :
  String.length (str_take n s) = Nat.min n (String.length s).
Proof.
  revert s. induction n as [|n IH]; intros [|c s]; try reflexivity.
  cbn [str_take]. simpl. now rewrite IH.
Qed.

Lemma str_take_all (n : nat) (s : string) :
  String.length s <= n -> str_take n s = s.
Proof.
  revert s. induction n as [|n IH]; intros [|c s] Hlen; try reflexivity.
  - simpl in Hlen. lia.
  - simpl in Hlen. cbn [str_take]. rewrite IH; [reflexivity | lia].
Qed.

Section Store.
Context `{Runtime} {store : Type}.
Variable create_document : string -> dict -> store -> result string * store.
Variable get_documents : string -> Z -> store -> result (list dict) * store.

(** X9.  Records whose "_id" is already text come back from the listing
    exactly as the store returned them. *)
Theorem list_items_text_ids_unchanged
    (collection : string) (limit : option Z) (db db' : store) (docs : list dict) :
  get_documents collection (match limit with Some n => n | None => 50%Z end) db
  = (Ok docs, db') ->
  Forall (fun d => exists text, dict_get "_id" d = Some (VStr text)) docs ->
  list_items get_documents collection limit db = (Returns docs, db').
Proof.
  intros Hget Hids. rewrite list_items_outcome, Hget. f_equal. f_equal.
  clear Hget. induction Hids as [|d docs [text Hd] _ IH]; [reflexivity|].
  simpl. rewrite IH. f_equal.
  unfold stringify_id, dict_get_default. rewrite Hd. cbn [py_str].
  now apply dict_set_same.
Qed.

(** X10.  Whatever records the store returns, each one that has no
    "_id" comes back, at its place in the listing, with the text "None"
    under "_id", added after its other fields. *)
Theorem list_items_missing_id
    (collection : string) (limit : option Z) (db db' : store) (docs : list dict) :
  get_documents collection (match limit with Some n => n | None => 50%Z end) db
  = (Ok docs, db') ->
  exists listed : list dict,
    list_items get_documents collection limit db = (Returns listed, db')
    /\ length listed = length docs
    /\ forall (i : nat) (d : dict),
         docs !! i = Some d ->
         dict_get "_id" d = None ->
         listed !! i = Some (d ++ [("_id", VStr "None")])%list.
Proof.
  intros Hget. exists (map stringify_id docs).
  split; [now rewrite list_items_outcome, Hget|].
  split; [apply length_map|].
  clear Hget. induction docs as [|d0 docs IH]; intros i d Hi Hd; [discriminate|].
  destruct i as [|i]; simpl in *.
  - injection Hi as ->. f_equal.
    unfold stringify_id, dict_get_default. rewrite Hd.
    now rewrite dict_set_new by now apply dict_get_none_keys.
  - now apply IH.
Qed.

(** X11.  Once the merge has succeeded, the call does to the store what
    the generic create does for the collection "document" and the
    generated record, and returns the identifier that create returns,
    next to the content. *)
Theorem generate_is_create_in_document
    (tmpl variables : dict) (filled : string) (db : store) :
  merge tmpl variables = Ok filled ->
  snd (generate_document create_document
         {| template := tmpl; variables := variables |} db)
  = snd (create_item create_document "document"
           (generated_doc tmpl variables filled) db)
  /\ forall new_id : string,
       fst (create_item create_document "document"
              (generated_doc tmpl variables filled) db)
       = Returns [("id", VStr new_id)] ->
       fst (generate_document create_document
              {| template := tmpl; variables := variables |} db)
       = Returns [("id", VStr new_id); ("content", VStr filled)].
Proof.
  intros Hm. rewrite (generate_merge_ok create_document _ _ _ db Hm).
  unfold create_item.
  destruct (create_document "document" _ db) as [[new_id|e] db1].
  - split; [reflexivity|]. now intros new_id' [= ->].
  - split; [|discriminate]. unfold generate_except.
    now destruct (is_KeyError e).
Qed.

End Store.

(** X12.  The diagnostic answer does not depend on the name of the
    database object: "database_name" only says whether the setting is
    there. *)
Theorem test_database_ignores_db_name
    (env : environ) (name name' : option string)
    (collections : result (list string)) :
  test_database env
    (Ok (Some {| db_name := name; list_collection_names := collections |}))
  = test_database env
      (Ok (Some {| db_name := name'; list_collection_names := collections |})).
Proof. destruct collections; reflexivity. Qed.

(** X13.  An error's text is shown cut to its first 50 characters: what
    is shown is the beginning of the text, 50 characters long when the text
    has more, the whole text otherwise; both for a failing import and for a
    failing enumeration of the collections. *)
Theorem test_database_error_text
    (env : environ) (e : exn) (name : option string) :
  exists shown dropped : string,
    dict_get "database" (test_database env (Raise e))
    = Some (VStr ("❌ Error: " +:+ shown))
    /\ dict_get "database"
         (test_database env
            (Ok (Some {| db_name := name; list_collection_names := Raise e |})))
       = Some (VStr ("⚠️  Connected but Error: " +:+ shown))
    /\ exn_str e = shown +:+ dropped
    /\ String.length shown = Nat.min 50 (String.length (exn_str e)).
Proof.
  destruct (str_take_split 50 (exn_str e)) as [dropped Hsplit].
  exists (str_take 50 (exn_str e)), dropped.
  split; [reflexivity|]. split; [reflexivity|].
  split; [exact Hsplit | apply str_take_length_min].
Qed.

(** X14.  For a model whose field names are distinct, the "fields"
    entry of [model_info] has the field names as its keys, in the order of
    declaration, and holds [str()] of each field's annotation under the
    field's name. *)
Theorem model_info_every_field (m : model) :
  NoDup (map fst (model_fields m)) ->
  exists fields : dict,
    dict_get "fields" (model_info m) = Some (VDict fields)
    /\ keys fields = map fst (model_fields m)
    /\ forall (name : string) (a : annotation),
         In (name, a) (model_fields m) ->
         dict_get name fields = Some (VStr (str_annotation a)).
Proof.
  intros Hnodup.
  exists (map (fun nf => (fst nf, VStr (str_annotation (snd nf)))) (model_fields m)).
  split; [now rewrite (model_info_fields m Hnodup)|].
  assert (Hkeys : keys (map (fun nf : string * annotation =>
                               (fst nf, VStr (str_annotation (snd nf))))
                          (model_fields m))
                  = map fst (model_fields m)).
  { unfold keys. rewrite map_map. reflexivity. }
  split; [exact Hkeys|].
  intros name a Hin. apply dict_get_in.
  - now rewrite Hkeys.
  - apply (in_map (fun nf : string * annotation =>
                     (fst nf, VStr (str_annotation (snd nf)))) _ _ Hin).
Qed.

End HandlerProperties.

(** ** The catalog and the merge *)

Module CatalogProperties.
Import Py Format Template Main TextFacts FormatFacts GenerateFacts MergeFacts
  MergeProperties.

Ltac same_names :=
  unfold listed_variables; simpl;
  rewrite !Forall_cons_iff, !Forall_nil_iff; tauto.

(** The body of the template in the goal is spelled by [segments]. *)
Ltac spelled_by segments :=
  match goal with
  | |- context [merge ?tmpl ?variables] =>
      rewrite (merge_body tmpl variables (body_of segments) eq_refl);
      rewrite (str_format_segments variables segments) by reflexivity;
      rewrite fill_ok_iff; cbn [holes]; same_names
  end.

(** X15.  Each of the three starter templates merges exactly when the
    variables hold a value for every name the template lists under
    "variables": the lists name the placeholders of the bodies, no more and
    no fewer. *)
Theorem default_templates_merge_iff_listed `{Runtime} {store : Type} (db : store) :
  exists catalog : list dict,
    default_templates db = (Returns catalog, db)
    /\ Forall
         (fun tmpl =>
            forall variables : dict,
              (exists filled, merge tmpl variables = Ok filled)
              <-> Forall (fun x => dict_get x variables <> None)
                    (listed_variables tmpl))
         catalog.
Proof.
  eexists. split; [reflexivity|].
  constructor; [|constructor; [|constructor; [|constructor]]]; intros variables.
  - spelled_by
      [Text ("This Mutual Non-Disclosure Agreement (the "
             +:+ chr dquote +:+ "Agreement" +:+ chr dquote
             +:+ ") is made effective on ");
       Hole "effective_date"; Text " between ";
       Hole "party_a_name"; Text " and "; Hole "party_b_name";
       Text ". Each party agrees to hold Confidential Information in strict confidence and not to disclose it to any third party... Governing law: ";
       Hole "jurisdiction"; Text "."].
  - spelled_by
      [Text "This Advisor Agreement is entered into by and between ";
       Hole "company_name"; Text " and "; Hole "advisor_name";
       Text ". Compensation shall be equity equal to ";
       Hole "equity_percent"; Text "% vesting over ";
       Hole "vesting_months"; Text " months..."].
  - spelled_by
      [Text "For good and valuable consideration, ";
       Hole "assignor_name"; Text " hereby assigns to ";
       Hole "assignee_company";
       Text " all right, title, and interest in and to the Assigned Inventions effective ";
       Hole "effective_date"; Text "..."].
Qed.

End CatalogProperties.

(** ** The further properties, run *)

Module PropertyScenarios.
Import Py Format Schemas Template Main Examples GenerateProperties
  HandlerProperties MergeProperties.

Lemma merge_is_fill_letter :
  (dict_get "body" [("body", VStr "Dear {name}, see {{clause}} of {doc}.")]
   = Some (VStr (body_of [Text "Dear "; Hole "name"; Text ", see "; OpenBrace;
                          Text "clause"; CloseBrace; Text " of "; Hole "doc";
                          Text "."]))
   /\ forallb well_formed
        [Text "Dear "; Hole "name"; Text ", see "; OpenBrace; Text "clause";
         CloseBrace; Text " of "; Hole "doc"; Text "."] = true)
  /\ @merge runtime [("body", VStr "Dear {name}, see {{clause}} of {doc}.")]
       [("name", VStr "Ann"); ("doc", VInt 7)]
     = Ok "Dear Ann, see {clause} of 7.".
Proof.
  split; [split; reflexivity|].
  exact (@merge_is_fill runtime
           [("body", VStr "Dear {name}, see {{clause}} of {doc}.")]
           [("name", VStr "Ann"); ("doc", VInt 7)]
           [Text "Dear "; Hole "name"; Text ", see "; OpenBrace; Text "clause";
            CloseBrace; Text " of "; Hole "doc"; Text "."]
           eq_refl eq_refl).
Defined.

Lemma merge_succeeds_iff_supplied_letter :
  (dict_get "body" [("body", VStr "Dear {name}, see {doc}.")]
   = Some (VStr (body_of [Text "Dear "; Hole "name"; Text ", see "; Hole "doc";
                          Text "."]))
   /\ forallb well_formed
        [Text "Dear "; Hole "name"; Text ", see "; Hole "doc"; Text "."] = true)
  /\ ((exists filled,
         @merge runtime [("body", VStr "Dear {name}, see {doc}.")]
           [("name", VStr "Ann")] = Ok filled)
      <-> Forall (fun x => dict_get x [("name", VStr "Ann")] <> None)
            ["name"; "doc"]).
Proof.
  split; [split; reflexivity|].
  exact (@merge_succeeds_iff_supplied runtime
           [("body", VStr "Dear {name}, see {doc}.")] [("name", VStr "Ann")]
           [Text "Dear "; Hole "name"; Text ", see "; Hole "doc"; Text "."]
           eq_refl eq_refl).
Defined.

Lemma generate_numbered_placeholder_zero :
  (dict_get "body" [("body", VStr "Hello {0}")]
   = Some (VStr ("Hello " +:+ placeholder "0" +:+ ""))
   /\ @str_format runtime "Hello " [("0", VStr "Ann")] = Ok "Hello "
   /\ all_digits "0" = true)
  /\ @generate_document runtime Store.store Store.create_document
       {| template := [("body", VStr "Hello {0}")];
          variables := [("0", VStr "Ann")] |} Store.empty
     = (HTTPException 400
          "Replacement index 0 out of range for positional args tuple",
        Store.empty).
Proof.
  split; [repeat split|].
  exact (@generate_numbered_placeholder runtime Store.store Store.create_document
           [("body", VStr "Hello {0}")] [("0", VStr "Ann")]
           "Hello " "0" "" "Hello " Store.empty
           eq_refl eq_refl eq_refl).
Defined.

Lemma generate_single_brace_total :
  (@str_format runtime "Total: 5" [] = Ok "Total: 5"
   /\ dict_get "body" [("body", VStr "Total: 5}")]
      = Some (VStr ("Total: 5" +:+ String rbrace ""))
   /\ starts_with "}" "" = false)
  /\ @generate_document runtime Store.store Store.create_document
       {| template := [("body", VStr "Total: 5}")]; variables := [] |}
       Store.empty
     = (HTTPException 400 "Single '}' encountered in format string", Store.empty).
Proof.
  split; [repeat split|].
  exact (@generate_single_brace runtime Store.store Store.create_document
           [("body", VStr "Total: 5}")] [] "Total: 5" "" "Total: 5" rbrace
           Store.empty eq_refl
           (or_introl (conj eq_refl (conj eq_refl eq_refl)))).
Defined.

Lemma generate_body_not_text_number :
  dict_get "body" [("name", VStr "NDA"); ("body", VInt 5)] = Some (VInt 5)
  /\ @generate_document runtime Store.store Store.create_document
       {| template := [("name", VStr "NDA"); ("body", VInt 5)];
          variables := nda_variables |} Store.empty
     = (HTTPException 400 "'int' object has no attribute 'format'", Store.empty).
Proof.
  split; [reflexivity|].
  apply (@generate_body_not_text runtime Store.store Store.create_document
           [("name", VStr "NDA"); ("body", VInt 5)] nda_variables (VInt 5)
           Store.empty eq_refl).
  intros text. discriminate.
Defined.

Lemma merge_ignores_other_variables_nda :
  (extends nda_variables (nda_variables ++ [("effective_date", VStr "today")])%list
   /\ @merge runtime nda_template nda_variables
      = Ok "Agreement between Acme and Beta.")
  /\ @merge runtime nda_template
       (nda_variables ++ [("effective_date", VStr "today")])%list
     = Ok "Agreement between Acme and Beta.".
Proof.
  split; [split; [apply extends_app | reflexivity]|].
  exact (@merge_ignores_other_variables runtime nda_template nda_variables
           (nda_variables ++ [("effective_date", VStr "today")])%list
           "Agreement between Acme and Beta."
           (extends_app _ _) eq_refl).
Defined.

Lemma generate_failure_is_400_nda :
  @generate_document runtime Store.store Store.create_document
    {| template := nda_template; variables := [] |} Store.empty
  = (HTTPException 400 "Missing variable: 'party_a_name'", Store.empty)
  /\ (400 = 400)%Z
  /\ exists e : exn,
       "Missing variable: 'party_a_name'"
       = (if is_KeyError e then "Missing variable: " +:+ exn_str e
          else exn_str e)
       /\ ((@merge runtime nda_template [] = Raise e /\ Store.empty = Store.empty)
           \/ exists filled : string,
                @merge runtime nda_template [] = Ok filled
                /\ Store.create_document "document"
                     (generated_doc nda_template [] filled) Store.empty
                   = (Raise e, Store.empty)).
Proof.
  split; [reflexivity|].
  exact (@generate_failure_is_400 runtime Store.store Store.create_document
           {| template := nda_template; variables := [] |}
           Store.empty Store.empty 400%Z "Missing variable: 'party_a_name'"
           eq_refl).
Defined.


(** A store that is a plain list of records, for the two listings. *)
Lemma list_items_text_ids_unchanged_client :
  ((fun (_ : string) (limit : Z) (s : list dict) =>
      (Ok (firstn (Z.to_nat limit) s), s))
     "client" 50%Z [[("name", VStr "Acme"); ("_id", VStr "a1")]]
   = (Ok [[("name", VStr "Acme"); ("_id", VStr "a1")]],
      [[("name", VStr "Acme"); ("_id", VStr "a1")]])
   /\ Forall (fun d => exists text, dict_get "_id" d = Some (VStr text))
        [[("name", VStr "Acme"); ("_id", VStr "a1")]])
  /\ @list_items runtime (list dict)
       (fun _ limit s => (Ok (firstn (Z.to_nat limit) s), s))
       "client" None [[("name", VStr "Acme"); ("_id", VStr "a1")]]
     = (Returns [[("name", VStr "Acme"); ("_id", VStr "a1")]],
        [[("name", VStr "Acme"); ("_id", VStr "a1")]]).
Proof.
  assert (Hids : Forall (fun d => exists text, dict_get "_id" d = Some (VStr text))
                   [[("name", VStr "Acme"); ("_id", VStr "a1")]]).
  { constructor; [now exists "a1" | constructor]. }
  split; [split; [reflexivity | exact Hids]|].
  exact (@list_items_text_ids_unchanged runtime (list dict)
           (fun _ limit s => (Ok (firstn (Z.to_nat limit) s), s))
           "client" None
           [[("name", VStr "Acme"); ("_id", VStr "a1")]]
           [[("name", VStr "Acme"); ("_id", VStr "a1")]]
           [[("name", VStr "Acme"); ("_id", VStr "a1")]] eq_refl Hids).
Defined.

Lemma list_items_missing_id_client :
  (fun (_ : string) (limit : Z) (s : list dict) =>
     (Ok (firstn (Z.to_nat limit) s), s))
    "client" 50%Z
    [[("name", VStr "Acme"); ("_id", VStr "a1")]; [("name", VStr "Beta")]]
  = (Ok [[("name", VStr "Acme"); ("_id", VStr "a1")]; [("name", VStr "Beta")]],
     [[("name", VStr "Acme"); ("_id", VStr "a1")]; [("name", VStr "Beta")]])
  /\ exists listed : list dict,
       @list_items runtime (list dict)
         (fun _ limit s => (Ok (firstn (Z.to_nat limit) s), s))
         "client" None
         [[("name", VStr "Acme"); ("_id", VStr "a1")]; [("name", VStr "Beta")]]
       = (Returns listed,
          [[("name", VStr "Acme"); ("_id", VStr "a1")]; [("name", VStr "Beta")]])
       /\ length listed = 2
       /\ forall (i : nat) (d : dict),
            [[("name", VStr "Acme"); ("_id", VStr "a1")]; [("name", VStr "Beta")]]
              !! i = Some d ->
            dict_get "_id" d = None ->
            listed !! i = Some (d ++ [("_id", VStr "None")])%list.
Proof.
  split; [reflexivity|].
  exact (@list_items_missing_id runtime (list dict)
           (fun _ limit s => (Ok (firstn (Z.to_nat limit) s), s))
           "client" None
           [[("name", VStr "Acme"); ("_id", VStr "a1")]; [("name", VStr "Beta")]]
           [[("name", VStr "Acme"); ("_id", VStr "a1")]; [("name", VStr "Beta")]]
           [[("name", VStr "Acme"); ("_id", VStr "a1")]; [("name", VStr "Beta")]]
           eq_refl).
Defined.

Lemma generate_is_create_in_document_nda :
  @merge runtime nda_template nda_variables
  = Ok "Agreement between Acme and Beta."
  /\ snd (@generate_document runtime Store.store Store.create_document
            {| template := nda_template; variables := nda_variables |}
            Store.empty)
     = snd (create_item Store.create_document "document"
              (generated_doc nda_template nda_variables
                 "Agreement between Acme and Beta.") Store.empty)
  /\ fst (@generate_document runtime Store.store Store.create_document
            {| template := nda_template; variables := nda_variables |}
            Store.empty)
     = Returns [("id", VStr "0");
                ("content", VStr "Agreement between Acme and Beta.")].
Proof.
  split; [reflexivity|].
  pose proof (@generate_is_create_in_document runtime Store.store
                Store.create_document nda_template nda_variables
                "Agreement between Acme and Beta." Store.empty eq_refl)
    as [Hstore Hid].
  split; [exact Hstore | exact (Hid "0" eq_refl)].
Defined.

Lemma client_field_names_distinct : NoDup (map fst (model_fields Client)).
Proof.
  apply (bool_decide_unpack _). vm_compute. exact I.
Qed.

Lemma model_info_every_field_client :
  NoDup (map fst (model_fields Client))
  /\ exists fields : dict,
       dict_get "fields" (model_info Client) = Some (VDict fields)
       /\ keys fields = map fst (model_fields Client)
       /\ forall (name : string) (a : annotation),
            In (name, a) (model_fields Client) ->
            dict_get name fields = Some (VStr (str_annotation a)).
Proof.
  split; [exact client_field_names_distinct|].
  exact (model_info_every_field Client client_field_names_distinct).
Defined.

End PropertyScenarios.
